(** * cyprus_file: page classification and OCR dispatch

    A shallow embedding of the two scripts of the repository,
    [check_ocr.py] (per-page analysis followed by a selective OCR run) and
    [ocr.py] (the batch variant), together with the properties stated for
    them.

    Conventions of the embedding.
    - A Python [str] is a [string]; a character is read as a code point in
      the range 0..255 (Latin-1), on which [str.lower] and [str.isspace]
      are character-wise and closed.
    - Python integers that count pages or characters are [nat]; an exit
      status is a [Z].
    - A call that may raise returns a [result]; the interpreter state
      (the outside world and the trace of library calls made so far) is
      passed explicitly through the monad [M].
    - The libraries the scripts call ([os], [pypdf], [subprocess]) are an
      interface [OS] over an abstract world; [posix_path] is the POSIX
      flavour of [os.path]. *)

From Stdlib Require Import String Ascii List Arith ZArith Lia Bool DecimalString.
From Stdlib Require Import DecimalNat.
From Stdlib Require Import Sorting.Sorted.
Import ListNotations.

Local Open Scope list_scope.
Local Open Scope string_scope.
Local Open Scope nat_scope.

(* ===================================================================== *)
(** ** Python strings *)
(* ===================================================================== *)

Module PyStr.

(** [str.isspace] on one character (code points below 256). *)
Definition isspace (c : ascii) : bool :=
  let n := nat_of_ascii c in
  ((9 <=? n) && (n <=? 13)) || ((28 <=? n) && (n <=? 32))
  || (n =? 133) || (n =? 160).

(** [str.lower] on one character (code points below 256). *)
Definition lower_char (c : ascii) : ascii :=
  let n := nat_of_ascii c in
  if ((65 <=? n) && (n <=? 90))
     || ((192 <=? n) && (n <=? 222) && negb (n =? 215))
  then ascii_of_nat (n + 32) else c.

Fixpoint lower (s : string) : string :=
  match s with
  | EmptyString => EmptyString
  | String c s' => String (lower_char c) (lower s')
  end.

Fixpoint lstrip (s : string) : string :=
  match s with
  | EmptyString => EmptyString
  | String c s' => if isspace c then lstrip s' else s
  end.

Fixpoint rstrip (s : string) : string :=
  match s with
  | EmptyString => EmptyString
  | String c s' =>
      match rstrip s' with
      | EmptyString => if isspace c then EmptyString else String c EmptyString
      | r => String c r
      end
  end.

(** [s.strip()] *)
Definition strip (s : string) : string := rstrip (lstrip s).

(** [len(s)] *)
Definition len (s : string) : nat := String.length s.

(** [s.endswith(suffix)]: some tail of [s] is [suffix]. *)
Fixpoint endswith (s suffix : string) : bool :=
  if String.eqb s suffix then true
  else match s with
       | EmptyString => false
       | String _ s' => endswith s' suffix
       end.

(** [sep.join(l)] *)
Definition join (sep : string) (l : list string) : string :=
  String.concat sep l.

(** [str(n)] for a non-negative integer. *)
Definition str_nat (n : nat) : string :=
  NilEmpty.string_of_uint (Nat.to_uint n).

(** [str(z)] for an integer. *)
Definition str_Z (z : Z) : string :=
  NilZero.string_of_int (Z.to_int z).

(** [s * n] *)
Fixpoint repeat (s : string) (n : nat) : string :=
  match n with
  | O => EmptyString
  | S n' => s ++ repeat s n'
  end.

(** The line feed of a multi-line literal. *)
Definition nl : string := String (ascii_of_nat 10) EmptyString.

(** [s.rfind(c)] for a one-character needle: the last index holding
    [c], or [-1]. *)
Fixpoint rfind_from (c : ascii) (s : string) (i : Z) (last : Z) : Z :=
  match s with
  | EmptyString => last
  | String d s' =>
      rfind_from c s' (i + 1)%Z (if Ascii.eqb d c then i else last)
  end.

Definition rfind (c : ascii) (s : string) : Z := rfind_from c s 0%Z (-1)%Z.

(** [s[i:]] and [s[:i]] for [0 <= i]. *)
Definition drop (i : nat) (s : string) : string :=
  substring i (String.length s - i) s.

Definition take (i : nat) (s : string) : string := substring 0 i s.

(** [s.startswith(prefix)] *)
Definition startswith (s pre : string) : bool := String.prefix pre s.

End PyStr.

(* ===================================================================== *)
(** ** Exceptions, results and the interpreter state *)
(* ===================================================================== *)

(** The exceptions the scripts can meet; all are subclasses of
    [Exception].  Each carries the text [str(e)] gives. *)
Inductive exn : Type :=
| FileNotFoundError (msg : string)
| CalledProcessError (returncode : Z) (stderr : string) (msg : string)
| OtherError (msg : string).

(** [str(e)] *)
Definition exn_str (e : exn) : string :=
  match e with
  | FileNotFoundError msg => msg
  | CalledProcessError _ _ msg => msg
  | OtherError msg => msg
  end.

Inductive result (A : Type) : Type :=
| Return (a : A)
| Raise (e : exn).

Arguments Return {A} a.
Arguments Raise {A} e.

(** A page of an opened PDF: [page.extract_text()]. *)
Record Page : Type := { extract_text : result string }.

(** What [pypdf.PdfReader(path)] returns: [reader.pages]. *)
Record PdfReader : Type := { pages : result (list Page) }.

(** The calls that leave the interpreter, in the order they are made:
    [print(line)], [subprocess.run(command, ...)], [os.makedirs(path)],
    [functools.partial(func, **keywords)] and
    [multiprocessing.Pool(processes)]. *)
Inductive event : Type :=
| Printed (line : string)
| Spawn (command : list string)
| Makedirs (path : string)
| Partial (func : string) (keywords : list (string * string))
| Pool (processes : option nat).

(** The libraries, over an abstract outside world. *)
Class OS (World : Type) : Type := {
  os_listdir : World -> string -> result (list string);
  os_path_isdir : World -> string -> bool;
  os_path_exists : World -> string -> bool;
  os_makedirs : World -> string -> result unit * World;
  os_getpid : World -> nat;
  pypdf_PdfReader : World -> string -> result PdfReader;
  (** [subprocess.run(command, check=True)]: a non-zero exit status
      raises [CalledProcessError], a missing executable
      [FileNotFoundError]. *)
  subprocess_run : World -> list string -> result unit * World
}.

(** [os.path] *)
Class OsPath : Type := {
  os_path_join : string -> string -> string;
  os_path_basename : string -> string;
  os_path_splitext : string -> string * string
}.

Record state (World : Type) : Type := {
  world : World;
  trace : list event
}.

Arguments world {World} s.
Arguments trace {World} s.

Definition M (World A : Type) : Type := state World -> result A * state World.

Definition ret {World A : Type} (a : A) : M World A :=
  fun st => (Return a, st).

Definition raise {World A : Type} (e : exn) : M World A :=
  fun st => (Raise e, st).

Definition bind {World A B : Type} (m : M World A) (k : A -> M World B)
  : M World B :=
  fun st =>
    match m st with
    | (Return a, st') => k a st'
    | (Raise e, st') => (Raise e, st')
    end.

Declare Scope py_scope.
Delimit Scope py_scope with py.
Notation "x <- m ;; k" := (bind m (fun x => k))
  (at level 61, m at next level, right associativity) : py_scope.
Notation "m ;; k" := (bind m (fun _ => k))
  (at level 61, right associativity) : py_scope.
Local Open Scope py_scope.

(** [try: body  except ...: handler]: a handler answering [None] does
    not match, and the exception goes on. *)
Definition try_except {World A : Type} (body : M World A)
  (handler : exn -> option (M World A)) : M World A :=
  fun st =>
    match body st with
    | (Return a, st') => (Return a, st')
    | (Raise e, st') =>
        match handler e with
        | Some h => h st'
        | None => (Raise e, st')
        end
    end.

Definition emit {World : Type} (ev : event) : M World unit :=
  fun st => (Return tt, {| world := world st; trace := (trace st ++ [ev])%list |}).

(** [print(line)] *)
Definition print {World : Type} (line : string) : M World unit :=
  emit (Printed line).

(** A value or exception that does not change the world. *)
Definition lift {World A : Type} (r : result A) : M World A :=
  fun st => (r, st).

Definition ask {World A : Type} (f : World -> A) : M World A :=
  fun st => (Return (f (world st)), st).

(** A call that may raise and does not change the world. *)
Definition query {World A : Type} (f : World -> result A) : M World A :=
  fun st => (f (world st), st).

(** A call that may change the world. *)
Definition call {World A : Type} (f : World -> result A * World)
  : M World A :=
  fun st =>
    let (r, w) := f (world st) in
    (r, {| world := w; trace := trace st |}).

(** [for x in l: body(x)] *)
Fixpoint for_each {World A : Type} (l : list A) (body : A -> M World unit)
  : M World unit :=
  match l with
  | [] => ret tt
  | x :: l' => body x ;; for_each l' body
  end.

(** [l[i]] *)
Definition getitem {World A : Type} (l : list A) (i : nat) : M World A :=
  match nth_error l i with
  | Some a => ret a
  | None => raise (OtherError "list index out of range")
  end.

(** The exit status of the interpreter after the module body. *)
Definition exit_status {A World : Type} (r : result A * state World) : Z :=
  match fst r with
  | Return _ => 0%Z
  | Raise _ => 1%Z
  end.

(* ===================================================================== *)
(** ** [os.path], POSIX flavour *)
(* ===================================================================== *)

Definition posix_join (a b : string) : string :=
  if PyStr.startswith b "/" then b
  else if (PyStr.len a =? 0) || PyStr.endswith a "/" then a ++ b
  else a ++ "/" ++ b.

Definition posix_basename (p : string) : string :=
  PyStr.drop (Z.to_nat (PyStr.rfind "/"%char p + 1)) p.

Definition posix_splitext (p : string) : string * string :=
  let sepIndex := PyStr.rfind "/"%char p in
  let dotIndex := PyStr.rfind "."%char p in
  if (sepIndex <? dotIndex)%Z then
    let filenameIndex := Z.to_nat (sepIndex + 1) in
    if existsb
         (fun k => match String.get k p with
                   | Some c => negb (Ascii.eqb c "."%char)
                   | None => false
                   end)
         (seq filenameIndex (Z.to_nat dotIndex - filenameIndex))
    then (PyStr.take (Z.to_nat dotIndex) p, PyStr.drop (Z.to_nat dotIndex) p)
    else (p, "")
  else (p, "").

#[export] Instance posix_path : OsPath := {|
  os_path_join := posix_join;
  os_path_basename := posix_basename;
  os_path_splitext := posix_splitext
|}.

(* ===================================================================== *)
(** ** check_ocr.py *)
(* ===================================================================== *)

Module CheckOcr.

Definition THRESHOLD : nat := 52.

Section Script.

Context {World : Type} {os : OS World} {path : OsPath}.

(** The body of the loop over [range(num_pages)], with the two lists it
    appends to. *)
Fixpoint analyze_loop (pdf_pages : list Page) (indices : list nat)
  (pages_needing_ocr : list nat) (char_counts : list string)
  : M World (list nat * list string) :=
  match indices with
  | [] => ret (pages_needing_ocr, char_counts)
  | i :: rest =>
      page <- getitem pdf_pages i ;;
      extracted <- lift (extract_text page) ;;
      let text := PyStr.strip extracted in
      let count :=
        "Page " ++ PyStr.str_nat (i + 1) ++ ": "
          ++ PyStr.str_nat (PyStr.len text) in
      let char_counts' := (char_counts ++ [count])%list in
      let pages_needing_ocr' :=
        if PyStr.len text <=? THRESHOLD
        then (pages_needing_ocr ++ [i + 1])%list
        else pages_needing_ocr in
      analyze_loop pdf_pages rest pages_needing_ocr' char_counts'
  end.

Definition analyze_pdf_pages (file_path : string) : M World (list nat) :=
  fun st =>
    match pypdf_PdfReader (world st) file_path with
    | Raise (FileNotFoundError _) =>
        (print ("Error: The file '" ++ file_path ++ "' was not found.") ;;
         ret []) st
    | Raise e =>
        (print ("An error occurred while reading the PDF: " ++ exn_str e) ;;
         ret []) st
    | Return pdf_reader =>
        (pdf_pages <- lift (pages pdf_reader) ;;
         let num_pages := length pdf_pages in
         print ("Analyzing '" ++ file_path ++ "' ("
                  ++ PyStr.str_nat num_pages ++ " pages)...") ;;
         r <- analyze_loop pdf_pages (seq 0 num_pages) [] [] ;;
         let (pages_needing_ocr, char_counts) := r in
         print (PyStr.nl ++ "--- Analysis Complete ---") ;;
         print "Character counts per page:" ;;
         for_each char_counts print ;;
         (match pages_needing_ocr with
          | _ :: _ =>
              print ("Found " ++ PyStr.str_nat (length pages_needing_ocr)
                       ++ " pages that likely need OCR.")
          | [] =>
              print "Found no pages that need OCR. The document appears to be fully searchable."
          end) ;;
         print "-------------------------" ;;
         ret pages_needing_ocr) st
    end.

(** The argument list handed to [subprocess.run]. *)
Definition ocr_command (input_file output_file : string)
  (pages_to_ocr : list nat) : list string :=
  let pages_arg := PyStr.join "," (map PyStr.str_nat pages_to_ocr) in
  [ "ocrmypdf";
    "-l"; "ell+eng+tur";
    "--redo-ocr";
    "--pages"; pages_arg;
    input_file;
    output_file ].

Definition run_ocr_for_file (input_file output_folder : string)
  (pages_to_ocr : list nat) : M World unit :=
  match pages_to_ocr with
  | [] =>
      print ("No pages to OCR for " ++ input_file ++ ". Skipping OCR step.")
  | _ :: _ =>
      let filename := os_path_basename input_file in
      let output_file := os_path_join output_folder filename in
      let pages_arg := PyStr.join "," (map PyStr.str_nat pages_to_ocr) in
      let command := ocr_command input_file output_file pages_to_ocr in
      print ("Running command for " ++ filename ++ " on pages: " ++ pages_arg) ;;
      try_except
        (emit (Spawn command) ;;
         call (fun w => subprocess_run w command) ;;
         print ("OCR completed successfully for " ++ filename ++ "."))
        (fun e =>
           match e with
           | CalledProcessError _ _ _ =>
               Some (print ("ocrmypdf failed for " ++ filename
                              ++ " with error: " ++ exn_str e))
           | FileNotFoundError _ =>
               Some (print "ocrmypdf command not found. Please ensure it's installed and in your PATH.")
           | OtherError _ => None
           end)
  end.

(** The body of the loop over [file_list]. *)
Definition process_file (source_folder output_folder filename : string)
  : M World unit :=
  let file_path := os_path_join source_folder filename in
  pages_to_ocr <- analyze_pdf_pages file_path ;;
  run_ocr_for_file file_path output_folder pages_to_ocr ;;
  print (PyStr.repeat "-" 30).

Definition process_folder (source_folder output_folder : string)
  : M World unit :=
  isdir <- ask (fun w => os_path_isdir w source_folder) ;;
  if negb isdir then
    print ("Error: Source folder '" ++ source_folder ++ "' does not exist.")
  else
    present <- ask (fun w => os_path_exists w output_folder) ;;
    (if negb present then
       emit (Makedirs output_folder) ;;
       call (fun w => os_makedirs w output_folder) ;;
       print ("Created output folder: '" ++ output_folder ++ "'")
     else ret tt) ;;
    names <- query (fun w => os_listdir w source_folder) ;;
    let file_list := filter (fun f => PyStr.endswith f ".pdf") names in
    match file_list with
    | [] => print ("No PDF files found in '" ++ source_folder ++ "'.")
    | _ :: _ =>
        print ("Found " ++ PyStr.str_nat (length file_list)
                 ++ " PDF files to process.") ;;
        print (PyStr.repeat "-" 30) ;;
        for_each file_list (process_file source_folder output_folder)
    end.

(** The module body under [if __name__ == "__main__"]. *)
Definition script : M World unit :=
  let source_dir := "archive" in
  let output_dir := "ocr" in
  process_folder source_dir output_dir.

End Script.

End CheckOcr.

(* ===================================================================== *)
(** ** ocr.py *)
(* ===================================================================== *)

Module Ocr.

Definition SOURCE_DIRECTORY : string := "archive".
Definition OUTPUT_DIRECTORY : string := "ocr".
Definition LANGUAGES : string := "eng+ell+tur".
Definition OUTPUT_SUFFIX : string := "_ocr".

(** The condition of the comprehension that builds [files_to_process]. *)
Definition to_process (f : string) : bool :=
  PyStr.endswith (PyStr.lower f) ".pdf"
  && negb (PyStr.endswith (PyStr.lower f) (OUTPUT_SUFFIX ++ ".pdf")).

Definition files_to_process (all_files : list string) : list string :=
  filter to_process all_files.

Section Script.

Context {World : Type} {os : OS World} {path : OsPath}.

(** The name [run_ocr_on_file] gives the file it writes. *)
Definition output_file_of (input_file suffix : string) : string :=
  let filename_without_ext := fst (os_path_splitext input_file) in
  filename_without_ext ++ suffix ++ ".pdf".

(** The argument list handed to [subprocess.run]. *)
Definition ocr_command (languages input_path output_path : string)
  : list string :=
  [ "ocrmypdf";
    "-l"; languages;
    "--force-ocr";
    input_path;
    output_path ].

(** The text returned when the executable is missing. *)
Definition not_found_message (pid : nat) : string :=
  "[Process " ++ PyStr.str_nat pid
    ++ "] FATAL ERROR: The 'ocrmypdf' command was not found. Please ensure it is installed and accessible in your system's PATH.".

(** The text returned when the tool exits with a non-zero status. *)
Definition error_message (pid : nat) (input_file : string)
  (returncode : Z) (stderr : string) : string :=
  PyStr.nl
    ++ "        [Process " ++ PyStr.str_nat pid
    ++ "] FAILED to process '" ++ input_file ++ "'." ++ PyStr.nl
    ++ "        ocrmypdf returned an error (exit code "
    ++ PyStr.str_Z returncode ++ ")." ++ PyStr.nl
    ++ "        --- OCRmyPDF Error Output ---" ++ PyStr.nl
    ++ "        " ++ PyStr.strip stderr ++ PyStr.nl
    ++ "        -----------------------------" ++ PyStr.nl
    ++ "        ".

Definition run_ocr_on_file
  (input_file source_dir output_dir languages suffix : string)
  : M World (option string) :=
  let output_file := output_file_of input_file suffix in
  let input_path := os_path_join source_dir input_file in
  let output_path := os_path_join output_dir output_file in
  pid <- ask os_getpid ;;
  print ("[Process " ++ PyStr.str_nat pid ++ "] STARTING: OCR for '"
           ++ input_file ++ "'") ;;
  let command := ocr_command languages input_path output_path in
  try_except
    (emit (Spawn command) ;;
     call (fun w => subprocess_run w command) ;;
     print ("[Process " ++ PyStr.str_nat pid ++ "] SUCCESS: Created '"
              ++ output_file ++ "'") ;;
     ret None)
    (fun e =>
       match e with
       | FileNotFoundError _ => Some (ret (Some (not_found_message pid)))
       | CalledProcessError returncode stderr _ =>
           Some (ret (Some (error_message pid input_file returncode stderr)))
       | OtherError _ => None
       end).

(** The body of the loop over [files_to_process]: the [partial] object
    is built and dropped. *)
Definition announce (f : string) : M World unit :=
  print ("  - " ++ f) ;;
  emit (Partial "run_ocr_on_file"
          [ ("source_dir", SOURCE_DIRECTORY);
            ("output_dir", OUTPUT_DIRECTORY);
            ("languages", LANGUAGES);
            ("suffix", OUTPUT_SUFFIX) ]).

Definition main : M World unit :=
  listing <-
    try_except
      (all_files <- query (fun w => os_listdir w SOURCE_DIRECTORY) ;;
       ret (Some all_files))
      (fun e =>
         match e with
         | FileNotFoundError _ =>
             Some (print ("Error: The directory '" ++ SOURCE_DIRECTORY
                            ++ "' was not found.") ;;
                   ret None)
         | _ => None
         end) ;;
  match listing with
  | None => ret tt
  | Some all_files =>
      let files := files_to_process all_files in
      match files with
      | [] => print "No new PDF files to process found."
      | _ :: _ =>
          print ("Found " ++ PyStr.str_nat (length files)
                   ++ " PDF file(s) to process:") ;;
          for_each files announce ;;
          print (PyStr.repeat "-" 40)
      end
  end.

End Script.

End Ocr.

(* ===================================================================== *)
(** ** A small world to run the scripts in *)
(* ===================================================================== *)

(** The OCR tool of a [Disk]: absent, or present with the exit status
    it gives each command. *)
Inductive Tool : Type :=
| Missing
| Installed (status : list string -> Z).

(** Directories with their entries, PDFs with the text of their pages,
    paths that hold no valid PDF, the OCR tool and the process id. *)
Record Disk : Type := {
  disk_dirs : list (string * list string);
  disk_pdfs : list (string * list string);
  disk_broken : list string;
  disk_tool : Tool;
  disk_pid : nat
}.

Fixpoint assoc {A : Type} (k : string) (l : list (string * A)) : option A :=
  match l with
  | [] => None
  | (k', v) :: l' => if String.eqb k k' then Some v else assoc k l'
  end.

Definition page_of (text : string) : Page :=
  {| extract_text := Return text |}.

Definition pdf_of (texts : list string) : PdfReader :=
  {| pages := Return (map page_of texts) |}.

Definition disk_listdir (w : Disk) (d : string) : result (list string) :=
  match assoc d (disk_dirs w) with
  | Some names => Return names
  | None => Raise (FileNotFoundError ("No such file or directory: '" ++ d ++ "'"))
  end.

Definition disk_isdir (w : Disk) (d : string) : bool :=
  match assoc d (disk_dirs w) with
  | Some _ => true
  | None => false
  end.

Definition disk_makedirs (w : Disk) (d : string) : result unit * Disk :=
  (Return tt,
   {| disk_dirs := (d, []) :: disk_dirs w; disk_pdfs := disk_pdfs w;
      disk_broken := disk_broken w; disk_tool := disk_tool w;
      disk_pid := disk_pid w |}).

Definition disk_PdfReader (w : Disk) (p : string) : result PdfReader :=
  if existsb (String.eqb p) (disk_broken w)
  then Raise (OtherError "EOF marker not found")
  else match assoc p (disk_pdfs w) with
       | Some texts => Return (pdf_of texts)
       | None => Raise (FileNotFoundError ("No such file or directory: '" ++ p ++ "'"))
       end.

Definition disk_run (w : Disk) (command : list string) : result unit * Disk :=
  match disk_tool w with
  | Missing => (Raise (FileNotFoundError "No such file or directory: 'ocrmypdf'"), w)
  | Installed status =>
      if (status command =? 0)%Z then (Return tt, w)
      else (Raise (CalledProcessError (status command) "InputFileError"
                     ("Command returned non-zero exit status "
                        ++ PyStr.str_Z (status command) ++ ".")), w)
  end.

#[export] Instance disk_os : OS Disk := {|
  os_listdir := disk_listdir;
  os_path_isdir := disk_isdir;
  os_path_exists := disk_isdir;
  os_makedirs := disk_makedirs;
  os_getpid := disk_pid;
  pypdf_PdfReader := disk_PdfReader;
  subprocess_run := disk_run
|}.

Definition start {World : Type} (w : World) : state World :=
  {| world := w; trace := [] |}.

(** An archive holding a three-page scan with one page of text, a
    one-page text document, a file that is no PDF and a name with no
    file behind it. *)
Definition archive (tool : Tool) : Disk :=
  {| disk_dirs :=
       [("archive", ["Tome 1.pdf"; "Tome 1_ocr.pdf"; "notes.txt";
                     "Tome 2.PDF"; "broken.pdf"; "gone.pdf"; "text.pdf"])];
     disk_pdfs :=
       [("archive/Tome 1.pdf",
          ["0123456789"; PyStr.repeat "a" 100; PyStr.repeat "b" 40]);
        ("archive/text.pdf", [PyStr.repeat "c" 60])];
     disk_broken := ["archive/broken.pdf"];
     disk_tool := tool;
     disk_pid := 4242 |}.

(** A scan whose only page extracts as 53 blanks. *)
Definition blank_scan : Disk :=
  {| disk_dirs := [("archive", ["scan.pdf"])];
     disk_pdfs := [("archive/scan.pdf", [PyStr.repeat " " 53])];
     disk_broken := [];
     disk_tool := Installed (fun _ => 0%Z);
     disk_pid := 1 |}.

(** Two folders: one with a scanned cover, a page of text and the two
    bound together, one with no name ending in [.pdf]. *)
Definition volumes : Disk :=
  {| disk_dirs :=
       [("volumes", ["cover.pdf"; "text.pdf"; "bound.pdf"]);
        ("empty", ["notes.txt"; "Scan.PDF"])];
     disk_pdfs :=
       [("volumes/cover.pdf", [""; "Tome 1"]);
        ("volumes/text.pdf", [PyStr.repeat "c" 60]);
        ("volumes/bound.pdf", [""; "Tome 1"; PyStr.repeat "c" 60])];
     disk_broken := [];
     disk_tool := Installed (fun _ => 0%Z);
     disk_pid := 2 |}.

(** A second world, for the failures a [Disk] cannot show: the PDF at
    ["vault/locked.pdf"] opens but gives no pages, the one at
    ["vault/torn.pdf"] gives a first page and fails on the second, the
    one at ["vault/scan.pdf"] is a blank page, the directory ["sealed"]
    cannot be listed, and the OCR tool cannot be executed. *)
Inductive Vault : Type := vault.

Definition vault_PdfReader (w : Vault) (p : string) : result PdfReader :=
  if String.eqb p "vault/locked.pdf" then
    Return {| pages := Raise (OtherError "File has not been decrypted") |}
  else if String.eqb p "vault/torn.pdf" then
    Return {| pages :=
                Return [ page_of "title";
                         {| extract_text :=
                              Raise (OtherError "Unexpected end of stream") |};
                         page_of "" ] |}
  else if String.eqb p "vault/scan.pdf" then Return (pdf_of [""])
  else Raise (FileNotFoundError ("No such file or directory: '" ++ p ++ "'")).

#[export] Instance vault_os : OS Vault := {|
  os_listdir := fun _ d =>
    if String.eqb d "vault"
    then Return ["scan.pdf"; "locked.pdf"; "torn.pdf"]
    else Raise (OtherError ("Permission denied: '" ++ d ++ "'"));
  os_path_isdir := fun _ d => String.eqb d "vault" || String.eqb d "sealed";
  os_path_exists := fun _ d => String.eqb d "vault" || String.eqb d "sealed";
  os_makedirs := fun w d =>
    (Raise (OtherError ("Permission denied: '" ++ d ++ "'")), w);
  os_getpid := fun _ => 7;
  pypdf_PdfReader := vault_PdfReader;
  subprocess_run := fun w _ =>
    (Raise (OtherError "Permission denied: 'ocrmypdf'"), w)
|}.

(* ===================================================================== *)
(** ** What the properties are stated with *)
(* ===================================================================== *)

(** The commands of the [subprocess.run] calls of a trace. *)
Fixpoint spawns (tr : list event) : list (list string) :=
  match tr with
  | [] => []
  | Spawn command :: tr' => command :: spawns tr'
  | _ :: tr' => spawns tr'
  end.

(** The pools built in a trace. *)
Fixpoint pools (tr : list event) : list (option nat) :=
  match tr with
  | [] => []
  | Pool processes :: tr' => processes :: pools tr'
  | _ :: tr' => pools tr'
  end.

(** The functions wrapped by the [partial] objects built in a trace. *)
Fixpoint partials (tr : list event) : list string :=
  match tr with
  | [] => []
  | Partial func _ :: tr' => func :: partials tr'
  | _ :: tr' => partials tr'
  end.

(** The lines printed in a trace. *)
Fixpoint printed (tr : list event) : list string :=
  match tr with
  | [] => []
  | Printed line :: tr' => line :: printed tr'
  | _ :: tr' => printed tr'
  end.

(** The PDF at [file_path] opens, and its pages extract as [texts]. *)
Definition readable {World : Type} {os : OS World} (w : World)
  (file_path : string) (texts : list string) : Prop :=
  exists reader pdf_pages,
    pypdf_PdfReader w file_path = Return reader
    /\ pages reader = Return pdf_pages
    /\ map extract_text pdf_pages = map (@Return string) texts.

(** Page [n] (counted from 1) of [texts] has at most [THRESHOLD]
    characters once stripped. *)
Definition short_page (texts : list string) (n : nat) : bool :=
  match nth_error texts (n - 1) with
  | Some t => PyStr.len (PyStr.strip t) <=? CheckOcr.THRESHOLD
  | None => false
  end.

(** The needs-OCR list as the specification words it: the 1-based
    numbers of the short pages, in document order. *)
Definition needs_ocr (texts : list string) : list nat :=
  filter (short_page texts) (seq 1 (length texts)).

(** What [run_ocr_for_file] returns after [subprocess.run] gave [r]. *)
Definition invoker_result (r : result unit) : result unit :=
  match r with
  | Raise (OtherError msg) => Raise (OtherError msg)
  | _ => Return tt
  end.

(** What [run_ocr_for_file] prints after [subprocess.run] gave [r]. *)
Definition invoker_report (filename : string) (r : result unit)
  : list event :=
  match r with
  | Return _ =>
      [Printed ("OCR completed successfully for " ++ filename ++ ".")]
  | Raise (CalledProcessError returncode stderr msg) =>
      [Printed ("ocrmypdf failed for " ++ filename ++ " with error: " ++ msg)]
  | Raise (FileNotFoundError _) =>
      [Printed "ocrmypdf command not found. Please ensure it's installed and in your PATH."]
  | Raise (OtherError _) => []
  end.

(** What [run_ocr_on_file] returns after [subprocess.run] gave [r]. *)
Definition worker_result (pid : nat) (input_file : string) (r : result unit)
  : result (option string) :=
  match r with
  | Return _ => Return None
  | Raise (FileNotFoundError _) => Return (Some (Ocr.not_found_message pid))
  | Raise (CalledProcessError returncode stderr _) =>
      Return (Some (Ocr.error_message pid input_file returncode stderr))
  | Raise (OtherError msg) => Raise (OtherError msg)
  end.

(** What [run_ocr_on_file] prints after [subprocess.run] gave [r]. *)
Definition worker_report (pid : nat) (output_file : string) (r : result unit)
  : list event :=
  match r with
  | Return _ =>
      [Printed ("[Process " ++ PyStr.str_nat pid ++ "] SUCCESS: Created '"
                  ++ output_file ++ "'")]
  | Raise _ => []
  end.

(** The events of the loop of [main] in [ocr.py] over [files]. *)
Definition announced (files : list string) : list event :=
  flat_map
    (fun f =>
       [Printed ("  - " ++ f);
        Partial "run_ocr_on_file"
          [("source_dir", Ocr.SOURCE_DIRECTORY);
           ("output_dir", Ocr.OUTPUT_DIRECTORY);
           ("languages", Ocr.LANGUAGES);
           ("suffix", Ocr.OUTPUT_SUFFIX)]])
    files.

(** An outcome of the OCR tool the invokers handle: success, a non-zero
    exit status, or no executable. *)
Definition tool_outcome {A : Type} (r : result A) : Prop :=
  match r with
  | Return _ => True
  | Raise (CalledProcessError _ _ _) => True
  | Raise (FileNotFoundError _) => True
  | Raise (OtherError _) => False
  end.

(** A failure of the OCR tool: a non-zero exit status or no
    executable. *)
Definition tool_failure (e : exn) : Prop :=
  match e with
  | CalledProcessError _ _ _ => True
  | FileNotFoundError _ => True
  | OtherError _ => False
  end.

(** Opening a PDF may fail, but an opened one gives all its pages. *)
Definition analysable (r : result PdfReader) : Prop :=
  match r with
  | Raise _ => True
  | Return reader =>
      exists pdf_pages texts,
        pages reader = Return pdf_pages
        /\ map extract_text pdf_pages = map (@Return string) texts
  end.

(** The directories [os.makedirs] was called for in a trace. *)
Fixpoint made_dirs (tr : list event) : list string :=
  match tr with
  | [] => []
  | Makedirs d :: tr' => d :: made_dirs tr'
  | _ :: tr' => made_dirs tr'
  end.

(** The entry of [char_counts] for the page at index [i] of [texts]. *)
Definition count_line (texts : list string) (i : nat) : string :=
  "Page " ++ PyStr.str_nat (i + 1) ++ ": "
    ++ PyStr.str_nat (PyStr.len (PyStr.strip (nth i texts ""))).

(** [s] holds nothing but whitespace. *)
Fixpoint blank (s : string) : bool :=
  match s with
  | EmptyString => true
  | String c s' => PyStr.isspace c && blank s'
  end.

(** [c] does not occur in [s]. *)
Fixpoint lacks (c : ascii) (s : string) : bool :=
  match s with
  | EmptyString => true
  | String d s' => negb (Ascii.eqb d c) && lacks c s'
  end.

(** The command of the selective invoker for [input_file]. *)
Definition selective_command {path : OsPath}
  (input_file output_folder : string) (pages_to_ocr : list nat)
  : list string :=
  [ "ocrmypdf"; "-l"; "ell+eng+tur"; "--redo-ocr"; "--pages";
    String.concat "," (map PyStr.str_nat pages_to_ocr);
    input_file;
    os_path_join output_folder (os_path_basename input_file) ].

(** What one turn of the loop of [process_folder] may start for
    [filename]: nothing, or one selective run on some pages of it. *)
Definition turn_of {path : OsPath} (source_folder output_folder : string)
  (filename : string) (commands : list (list string)) : Prop :=
  commands = []
  \/ exists n rest,
       commands =
       [selective_command (os_path_join source_folder filename)
          output_folder (n :: rest)].

(* ===================================================================== *)
(** ** Strings *)
(* ===================================================================== *)

Lemma lstrip_length (s : string) : PyStr.len (PyStr.lstrip s) <= PyStr.len s.
Proof.
  unfold PyStr.len.
  induction s as [|c s IH]; simpl; [lia|].
  destruct (PyStr.isspace c); simpl; lia.
Qed.

Lemma rstrip_length (s : string) : PyStr.len (PyStr.rstrip s) <= PyStr.len s.
Proof.
  unfold PyStr.len.
  induction s as [|c s IH]; simpl; [lia|].
  destruct (PyStr.rstrip s) as [|d r]; simpl in *.
  - destruct (PyStr.isspace c); simpl; lia.
  - lia.
Qed.

Lemma strip_length (s : string) : PyStr.len (PyStr.strip s) <= PyStr.len s.
Proof.
  unfold PyStr.strip.
  pose proof (rstrip_length (PyStr.lstrip s)).
  pose proof (lstrip_length s).
  lia.
Qed.

Lemma endswith_eq (s suffix : string) :
  PyStr.endswith s suffix =
  if String.eqb s suffix then true
  else match s with
       | EmptyString => false
       | String _ s' => PyStr.endswith s' suffix
       end.
Proof.
  destruct s; reflexivity.
Qed.

Lemma endswith_refl (s : string) : PyStr.endswith s s = true.
Proof.
  rewrite endswith_eq, String.eqb_refl. reflexivity.
Qed.

Lemma endswith_app (p suffix : string) :
  PyStr.endswith (p ++ suffix) suffix = true.
Proof.
  induction p as [|c p IH].
  - apply endswith_refl.
  - rewrite endswith_eq.
    destruct (String.eqb (String c p ++ suffix) suffix); [reflexivity|].
    exact IH.
Qed.

Lemma endswith_spec (s suffix : string) :
  PyStr.endswith s suffix = true <-> exists p, s = p ++ suffix.
Proof.
  split.
  - induction s as [|c s IH]; rewrite endswith_eq.
    + destruct (String.eqb_spec "" suffix) as [E|E].
      * intros _. exists "". rewrite <- E. reflexivity.
      * discriminate.
    + destruct (String.eqb_spec (String c s) suffix) as [E|E].
      * intros _. exists "". rewrite <- E. reflexivity.
      * intros H. destruct (IH H) as [p Hp].
        exists (String c p). simpl. rewrite Hp. reflexivity.
  - intros [p ->]. apply endswith_app.
Qed.

Lemma lower_app (a b : string) :
  PyStr.lower (a ++ b) = PyStr.lower a ++ PyStr.lower b.
Proof.
  induction a as [|c a IH]; simpl; [reflexivity|].
  rewrite IH. reflexivity.
Qed.

(* ===================================================================== *)
(** ** Traces *)
(* ===================================================================== *)

Lemma spawns_app (a b : list event) :
  spawns (a ++ b) = (spawns a ++ spawns b)%list.
Proof.
  induction a as [|ev a IH]; simpl; [reflexivity|].
  destruct ev; simpl; rewrite IH; reflexivity.
Qed.

Lemma pools_app (a b : list event) :
  pools (a ++ b) = (pools a ++ pools b)%list.
Proof.
  induction a as [|ev a IH]; simpl; [reflexivity|].
  destruct ev; simpl; rewrite IH; reflexivity.
Qed.

Lemma partials_app (a b : list event) :
  partials (a ++ b) = (partials a ++ partials b)%list.
Proof.
  induction a as [|ev a IH]; simpl; [reflexivity|].
  destruct ev; simpl; rewrite IH; reflexivity.
Qed.

Lemma spawns_printed (lines : list string) : spawns (map Printed lines) = [].
Proof.
  induction lines as [|l lines IH]; simpl; auto.
Qed.

(* ===================================================================== *)
(** ** The analysis of one PDF *)
(* ===================================================================== *)

Lemma print_run {World : Type} (line : string) (st : state World) :
  print line st
  = (Return tt, {| world := world st; trace := (trace st ++ [Printed line])%list |}).
Proof. reflexivity. Qed.

Lemma for_each_print {World : Type} (lines : list string) (st : state World) :
  for_each lines print st
  = (Return tt,
     {| world := world st; trace := (trace st ++ map Printed lines)%list |}).
Proof.
  revert st. induction lines as [|l lines IH]; intros st; simpl.
  - unfold ret. rewrite app_nil_r. destruct st; reflexivity.
  - unfold bind. rewrite print_run, IH. simpl.
    rewrite <- app_assoc. reflexivity.
Qed.

(** One [print] at the head of a sequence. *)
Ltac step_print :=
  unfold bind at 1; rewrite print_run; cbv beta iota; cbn [world trace].

(** The outcome of the tool, case by case. *)
Ltac by_outcome :=
  match goal with
  | |- context [fst (subprocess_run ?w ?c)] =>
      destruct (fst (subprocess_run w c)) as [[]|[]]; reflexivity
  end.

Section Analysis.

Context {World : Type} {os : OS World}.

Lemma extracted_nth (pdf_pages : list Page) (texts : list string) (k : nat) :
  map extract_text pdf_pages = map (@Return string) texts ->
  k < length texts ->
  exists page t,
    nth_error pdf_pages k = Some page
    /\ extract_text page = Return t
    /\ nth_error texts k = Some t.
Proof.
  intros Hmap Hk.
  assert (Hlen : length pdf_pages = length texts).
  { rewrite <- (length_map extract_text), Hmap. apply length_map. }
  destruct (nth_error pdf_pages k) as [page|] eqn:Hp.
  2:{ apply nth_error_None in Hp. lia. }
  destruct (nth_error texts k) as [t|] eqn:Ht.
  2:{ apply nth_error_None in Ht. lia. }
  exists page, t. repeat split.
  pose proof (map_nth_error extract_text k pdf_pages Hp) as H1.
  pose proof (map_nth_error (@Return string) k texts Ht) as H2.
  rewrite Hmap in H1. congruence.
Qed.

Lemma analyze_loop_readable (pdf_pages : list Page) (texts : list string) :
  map extract_text pdf_pages = map (@Return string) texts ->
  forall m k acc counts (st : state World),
    k + m <= length texts ->
    exists counts',
      CheckOcr.analyze_loop pdf_pages (seq k m) acc counts st
      = (Return ((acc ++ filter (short_page texts) (seq (k + 1) m))%list,
                 counts'), st).
Proof.
  intros Hmap. induction m as [|m IH]; intros k acc counts st Hk.
  - exists counts. simpl. rewrite app_nil_r. reflexivity.
  - destruct (extracted_nth pdf_pages texts k Hmap) as (page & t & Hp & Ht & Hn);
      [lia|].
    cbn [seq CheckOcr.analyze_loop].
    unfold bind at 1. unfold getitem. rewrite Hp. unfold ret at 1.
    unfold bind at 1. unfold lift at 1. rewrite Ht.
    destruct (IH (S k)
                (if PyStr.len (PyStr.strip t) <=? CheckOcr.THRESHOLD
                 then (acc ++ [k + 1])%list else acc)
                (counts ++
                   [("Page " ++ PyStr.str_nat (k + 1) ++ ": "
                       ++ PyStr.str_nat (PyStr.len (PyStr.strip t)))%string])%list
                st) as [counts' Hrec]; [lia|].
    exists counts'. cbv zeta. rewrite Hrec.
    replace (S k + 1) with (S (k + 1)) by lia.
    cbn [filter]. unfold short_page at 2.
    replace (k + 1 - 1) with k by lia. rewrite Hn.
    destruct (PyStr.len (PyStr.strip t) <=? CheckOcr.THRESHOLD).
    + rewrite <- app_assoc. reflexivity.
    + reflexivity.
Qed.

(** On a PDF that opens and extracts, [analyze_pdf_pages] returns the
    needs-OCR list of the specification, prints, and changes nothing
    else. *)
Lemma analyze_pdf_pages_readable (file_path : string) (texts : list string)
  (st : state World) :
  readable (world st) file_path texts ->
  exists lines,
    CheckOcr.analyze_pdf_pages file_path st
    = (Return (needs_ocr texts),
       {| world := world st;
          trace := (trace st ++ map Printed lines)%list |}).
Proof.
  intros (reader & pdf_pages & Hopen & Hpages & Hmap).
  assert (Hlen : length pdf_pages = length texts).
  { rewrite <- (length_map extract_text), Hmap. apply length_map. }
  unfold CheckOcr.analyze_pdf_pages. rewrite Hopen.
  unfold bind at 1. unfold lift at 1. rewrite Hpages.
  unfold bind at 1. rewrite print_run.
  unfold bind at 1.
  match goal with
  | |- context [CheckOcr.analyze_loop _ _ _ _ ?s] =>
      destruct (analyze_loop_readable pdf_pages texts Hmap
                  (length pdf_pages) 0 [] [] s) as [counts Hloop]
  end; [lia|].
  rewrite Hloop. cbn [app]. rewrite Hlen. change (0 + 1) with 1.
  fold (needs_ocr texts). cbv beta iota.
  do 2 step_print.
  unfold bind at 1; rewrite for_each_print; cbv beta iota; cbn [world trace].
  unfold bind at 1.
  exists ((("Analyzing '" ++ file_path ++ "' ("
              ++ PyStr.str_nat (length texts) ++ " pages)...")%string
           :: (PyStr.nl ++ "--- Analysis Complete ---")%string
           :: "Character counts per page:"%string
           :: counts)
          ++ [match needs_ocr texts with
              | [] => "Found no pages that need OCR. The document appears to be fully searchable."%string
              | _ :: _ =>
                  ("Found " ++ PyStr.str_nat (length (needs_ocr texts))
                     ++ " pages that likely need OCR.")%string
              end;
              "-------------------------"%string])%list.
  destruct (needs_ocr texts) as [|n l]; rewrite print_run;
    cbv beta iota; cbn [world trace];
    unfold bind; rewrite print_run; unfold ret; cbn [world trace];
    f_equal; f_equal; rewrite map_app; cbn [map app];
    rewrite <- !app_assoc; reflexivity.
Qed.

(** When the PDF does not open, the result is empty and one line is
    printed. *)
Lemma analyze_pdf_pages_unreadable (file_path : string) (e : exn)
  (st : state World) :
  pypdf_PdfReader (world st) file_path = Raise e ->
  CheckOcr.analyze_pdf_pages file_path st
  = (Return [],
     {| world := world st;
        trace :=
          (trace st ++
             [Printed
                match e with
                | FileNotFoundError _ =>
                    "Error: The file '" ++ file_path ++ "' was not found."
                | _ => "An error occurred while reading the PDF: " ++ exn_str e
                end])%list |}).
Proof.
  intros Hopen. unfold CheckOcr.analyze_pdf_pages. rewrite Hopen.
  destruct e; reflexivity.
Qed.

(** Only the opening of the file is guarded: an exception raised when
    the pages are reached, or when a page is extracted, leaves
    [analyze_pdf_pages]. *)
Remark page_error_propagates (file_path : string) (reader : PdfReader)
  (e : exn) (st : state World) :
  pypdf_PdfReader (world st) file_path = Return reader ->
  pages reader = Raise e
  \/ pages reader = Return [{| extract_text := Raise e |}] ->
  fst (CheckOcr.analyze_pdf_pages file_path st) = Raise e.
Proof.
  intros Hopen [Hpages|Hpages];
    unfold CheckOcr.analyze_pdf_pages; rewrite Hopen;
    unfold bind at 1; unfold lift at 1; rewrite Hpages; reflexivity.
Qed.

End Analysis.

(* ===================================================================== *)
(** ** The needs-OCR list *)
(* ===================================================================== *)

Lemma needs_ocr_In (texts : list string) (n : nat) :
  In n (needs_ocr texts) <->
  exists t, 1 <= n /\ nth_error texts (n - 1) = Some t
            /\ PyStr.len (PyStr.strip t) <= CheckOcr.THRESHOLD.
Proof.
  unfold needs_ocr. rewrite filter_In, in_seq. unfold short_page. split.
  - intros [Hn Hs]. destruct (nth_error texts (n - 1)) as [t|]; [|discriminate].
    exists t. apply Nat.leb_le in Hs. repeat split; [lia|exact Hs].
  - intros (t & Hn & Ht & Hs). rewrite Ht. split.
    + assert (n - 1 < length texts) by (apply nth_error_Some; congruence). lia.
    + apply Nat.leb_le. exact Hs.
Qed.

Lemma seq_strictly_increasing (n a : nat) : StronglySorted lt (seq a n).
Proof.
  revert a. induction n as [|n IH]; intros a; simpl; constructor.
  - apply IH.
  - apply Forall_forall. intros x Hx. apply in_seq in Hx. lia.
Qed.

Lemma filter_strictly_increasing (f : nat -> bool) (l : list nat) :
  StronglySorted lt l -> StronglySorted lt (filter f l).
Proof.
  induction 1 as [|a l Hl IH Ha]; simpl; [constructor|].
  destruct (f a); [|exact IH].
  constructor; [exact IH|].
  apply Forall_forall. intros x Hx. apply filter_In in Hx.
  rewrite Forall_forall in Ha. apply Ha. tauto.
Qed.

Lemma needs_ocr_increasing (texts : list string) :
  StronglySorted lt (needs_ocr texts).
Proof.
  apply filter_strictly_increasing, seq_strictly_increasing.
Qed.

Lemma needs_ocr_NoDup (texts : list string) : NoDup (needs_ocr texts).
Proof.
  apply NoDup_filter, seq_NoDup.
Qed.

Lemma needs_ocr_range (texts : list string) :
  Forall (fun n => 1 <= n <= length texts) (needs_ocr texts).
Proof.
  apply Forall_forall. intros n Hn. apply filter_In in Hn.
  destruct Hn as [Hn _]. apply in_seq in Hn. lia.
Qed.

Lemma archive_tome_readable (tool : Tool) :
  readable (archive tool) "archive/Tome 1.pdf"
    ["0123456789"; PyStr.repeat "a" 100; PyStr.repeat "b" 40].
Proof.
  exists (pdf_of ["0123456789"; PyStr.repeat "a" 100; PyStr.repeat "b" 40]).
  eexists. repeat split.
Qed.

Lemma blank_scan_readable :
  readable blank_scan "archive/scan.pdf" [PyStr.repeat " " 53].
Proof.
  exists (pdf_of [PyStr.repeat " " 53]). eexists. repeat split.
Qed.

(* ===================================================================== *)
(** ** Properties of the page classifier *)
(* ===================================================================== *)

Section Classifier.

Context {World : Type} {os : OS World}.

(** C1.  On every readable PDF, [analyze_pdf_pages] returns exactly the
    list of the 1-based numbers of the pages whose extracted text, once
    stripped of surrounding whitespace, has at most 52 characters; in
    particular a page whose extracted text itself has at most 52
    characters (none at all included) is in the list. *)
Theorem analyze_pdf_pages_exact (file_path : string) (texts : list string)
  (st : state World) :
  readable (world st) file_path texts ->
  exists l st',
    CheckOcr.analyze_pdf_pages file_path st = (Return l, st')
    /\ l = needs_ocr texts
    /\ (forall n,
          In n l <->
          exists t, 1 <= n /\ nth_error texts (n - 1) = Some t
                    /\ PyStr.len (PyStr.strip t) <= 52)
    /\ (forall i t,
          nth_error texts i = Some t -> PyStr.len t <= 52 -> In (i + 1) l).
Proof.
  intros Hr.
  destruct (analyze_pdf_pages_readable file_path texts st Hr) as [lines Hrun].
  exists (needs_ocr texts). eexists. split; [exact Hrun|].
  split; [reflexivity|]. split.
  - intros n. apply needs_ocr_In.
  - intros i t Hi Ht. apply needs_ocr_In. exists t.
    replace (i + 1 - 1) with i by lia.
    pose proof (strip_length t). unfold CheckOcr.THRESHOLD.
    repeat split; [lia|exact Hi|lia].
Qed.

(** C2, amended.  On every readable PDF, a page whose extracted text
    still has more than 52 characters after the surrounding whitespace is
    stripped is not in the list [analyze_pdf_pages] returns. *)
Theorem long_stripped_page_excluded (file_path : string)
  (texts : list string) (st : state World) (i : nat) (t : string) :
  readable (world st) file_path texts ->
  nth_error texts i = Some t ->
  52 < PyStr.len (PyStr.strip t) ->
  exists l st',
    CheckOcr.analyze_pdf_pages file_path st = (Return l, st')
    /\ ~ In (i + 1) l.
Proof.
  intros Hr Hi Ht.
  destruct (analyze_pdf_pages_readable file_path texts st Hr) as [lines Hrun].
  exists (needs_ocr texts). eexists. split; [exact Hrun|].
  intros Hin. apply needs_ocr_In in Hin.
  destruct Hin as (t' & _ & Hi' & Ht').
  replace (i + 1 - 1) with i in Hi' by lia.
  unfold CheckOcr.THRESHOLD in Ht'.
  assert (t' = t) by congruence. subst t'. lia.
Qed.

(** C5.  On a three-page document whose pages have 10, 100 and 40
    characters (as the analysis counts them: after stripping),
    [analyze_pdf_pages] returns exactly [[1; 3]]. *)
Theorem three_page_example (file_path : string) (t1 t2 t3 : string)
  (st : state World) :
  readable (world st) file_path [t1; t2; t3] ->
  PyStr.len (PyStr.strip t1) = 10 ->
  PyStr.len (PyStr.strip t2) = 100 ->
  PyStr.len (PyStr.strip t3) = 40 ->
  fst (CheckOcr.analyze_pdf_pages file_path st) = Return [1; 3].
Proof.
  intros Hr H1 H2 H3.
  destruct (analyze_pdf_pages_readable file_path _ st Hr) as [lines Hrun].
  rewrite Hrun. cbn [fst]. f_equal.
  unfold needs_ocr. cbn [length seq filter].
  unfold short_page. cbn [Nat.sub nth_error].
  rewrite H1, H2, H3. reflexivity.
Qed.

(** C10.  On every readable PDF of [n] pages, the list
    [analyze_pdf_pages] returns is strictly increasing, hence without
    duplicates, and each of its elements lies between 1 and [n]. *)
Theorem analyze_pdf_pages_increasing (file_path : string)
  (texts : list string) (st : state World) :
  readable (world st) file_path texts ->
  exists l st',
    CheckOcr.analyze_pdf_pages file_path st = (Return l, st')
    /\ StronglySorted lt l
    /\ NoDup l
    /\ Forall (fun n => 1 <= n <= length texts) l.
Proof.
  intros Hr.
  destruct (analyze_pdf_pages_readable file_path texts st Hr) as [lines Hrun].
  exists (needs_ocr texts). eexists. split; [exact Hrun|].
  split; [apply needs_ocr_increasing|].
  split; [apply needs_ocr_NoDup|apply needs_ocr_range].
Qed.

End Classifier.

Lemma analyze_pdf_pages_exact_witness :
  readable (world (start (archive Missing))) "archive/Tome 1.pdf"
    ["0123456789"; PyStr.repeat "a" 100; PyStr.repeat "b" 40]
  /\ exists l st',
       CheckOcr.analyze_pdf_pages "archive/Tome 1.pdf" (start (archive Missing))
       = (Return l, st')
       /\ l = needs_ocr ["0123456789"; PyStr.repeat "a" 100; PyStr.repeat "b" 40]
       /\ (forall n,
             In n l <->
             exists t,
               1 <= n
               /\ nth_error
                    ["0123456789"; PyStr.repeat "a" 100; PyStr.repeat "b" 40]
                    (n - 1) = Some t
               /\ PyStr.len (PyStr.strip t) <= 52)
       /\ (forall i t,
             nth_error
               ["0123456789"; PyStr.repeat "a" 100; PyStr.repeat "b" 40] i
             = Some t ->
             PyStr.len t <= 52 -> In (i + 1) l).
Proof.
  split.
  - apply archive_tome_readable.
  - apply (analyze_pdf_pages_exact "archive/Tome 1.pdf"
             ["0123456789"; PyStr.repeat "a" 100; PyStr.repeat "b" 40]
             (start (archive Missing))).
    apply archive_tome_readable.
Defined.

Lemma long_stripped_page_excluded_witness :
  readable (world (start (archive Missing))) "archive/Tome 1.pdf"
    ["0123456789"; PyStr.repeat "a" 100; PyStr.repeat "b" 40]
  /\ nth_error ["0123456789"; PyStr.repeat "a" 100; PyStr.repeat "b" 40] 1
     = Some (PyStr.repeat "a" 100)
  /\ 52 < PyStr.len (PyStr.strip (PyStr.repeat "a" 100))
  /\ exists l st',
       CheckOcr.analyze_pdf_pages "archive/Tome 1.pdf" (start (archive Missing))
       = (Return l, st')
       /\ ~ In (1 + 1) l.
Proof.
  assert (H1 : readable (world (start (archive Missing))) "archive/Tome 1.pdf"
                 ["0123456789"; PyStr.repeat "a" 100; PyStr.repeat "b" 40])
    by apply archive_tome_readable.
  assert (H2 : nth_error
                 ["0123456789"; PyStr.repeat "a" 100; PyStr.repeat "b" 40] 1
               = Some (PyStr.repeat "a" 100)) by reflexivity.
  assert (H3 : 52 < PyStr.len (PyStr.strip (PyStr.repeat "a" 100)))
    by (vm_compute; lia).
  exact (conj H1 (conj H2 (conj H3
           (long_stripped_page_excluded "archive/Tome 1.pdf" _
              (start (archive Missing)) 1 _ H1 H2 H3)))).
Defined.

(** C2 as stated fails: a page that extracts as 53 blanks has more than
    52 characters before stripping, and is page 1 of the returned
    list. *)
Lemma raw_length_counterexample :
  readable blank_scan "archive/scan.pdf" [PyStr.repeat " " 53]
  /\ nth_error [PyStr.repeat " " 53] 0 = Some (PyStr.repeat " " 53)
  /\ 52 < PyStr.len (PyStr.repeat " " 53)
  /\ exists st',
       CheckOcr.analyze_pdf_pages "archive/scan.pdf" (start blank_scan)
       = (Return [1], st')
       /\ In (0 + 1) [1].
Proof.
  split; [apply blank_scan_readable|].
  split; [reflexivity|].
  split; [vm_compute; lia|].
  eexists. split; [vm_compute; reflexivity|].
  left. reflexivity.
Qed.

Lemma three_page_example_witness :
  readable (world (start (archive Missing))) "archive/Tome 1.pdf"
    ["0123456789"; PyStr.repeat "a" 100; PyStr.repeat "b" 40]
  /\ PyStr.len (PyStr.strip "0123456789") = 10
  /\ PyStr.len (PyStr.strip (PyStr.repeat "a" 100)) = 100
  /\ PyStr.len (PyStr.strip (PyStr.repeat "b" 40)) = 40
  /\ fst (CheckOcr.analyze_pdf_pages "archive/Tome 1.pdf"
            (start (archive Missing))) = Return [1; 3].
Proof.
  assert (H0 : readable (world (start (archive Missing))) "archive/Tome 1.pdf"
                 ["0123456789"; PyStr.repeat "a" 100; PyStr.repeat "b" 40])
    by apply archive_tome_readable.
  assert (H1 : PyStr.len (PyStr.strip "0123456789") = 10) by reflexivity.
  assert (H2 : PyStr.len (PyStr.strip (PyStr.repeat "a" 100)) = 100)
    by reflexivity.
  assert (H3 : PyStr.len (PyStr.strip (PyStr.repeat "b" 40)) = 40)
    by reflexivity.
  exact (conj H0 (conj H1 (conj H2 (conj H3
           (three_page_example "archive/Tome 1.pdf" _ _ _
              (start (archive Missing)) H0 H1 H2 H3))))).
Defined.

Lemma analyze_pdf_pages_increasing_witness :
  readable (world (start (archive Missing))) "archive/Tome 1.pdf"
    ["0123456789"; PyStr.repeat "a" 100; PyStr.repeat "b" 40]
  /\ exists l st',
       CheckOcr.analyze_pdf_pages "archive/Tome 1.pdf" (start (archive Missing))
       = (Return l, st')
       /\ StronglySorted lt l
       /\ NoDup l
       /\ Forall (fun n => 1 <= n <= 3) l.
Proof.
  split.
  - apply archive_tome_readable.
  - apply (analyze_pdf_pages_increasing "archive/Tome 1.pdf"
             ["0123456789"; PyStr.repeat "a" 100; PyStr.repeat "b" 40]
             (start (archive Missing))).
    apply archive_tome_readable.
Defined.

(* ===================================================================== *)
(** ** The selective invoker and the loop of [process_folder] *)
(* ===================================================================== *)

Section Invoker.

Context {World : Type} {os : OS World} {path : OsPath}.

Lemma run_ocr_for_file_empty (input_file output_folder : string)
  (st : state World) :
  CheckOcr.run_ocr_for_file input_file output_folder [] st
  = (Return tt,
     {| world := world st;
        trace :=
          (trace st ++
             [Printed ("No pages to OCR for " ++ input_file
                         ++ ". Skipping OCR step.")])%list |}).
Proof. reflexivity. Qed.

(** With pages to treat, the invoker prints, runs the tool once and
    reports what the run gave. *)
Lemma run_ocr_for_file_pages (input_file output_folder : string)
  (n : nat) (rest : list nat) (st : state World) :
  let filename := os_path_basename input_file in
  let command :=
    [ "ocrmypdf"; "-l"; "ell+eng+tur"; "--redo-ocr";
      "--pages"; PyStr.join "," (map PyStr.str_nat (n :: rest));
      input_file; os_path_join output_folder filename ] in
  let outcome := subprocess_run (world st) command in
  CheckOcr.run_ocr_for_file input_file output_folder (n :: rest) st
  = (invoker_result (fst outcome),
     {| world := snd outcome;
        trace :=
          (trace st ++
             Printed ("Running command for " ++ filename ++ " on pages: "
                        ++ PyStr.join "," (map PyStr.str_nat (n :: rest)))
             :: Spawn command
             :: invoker_report filename (fst outcome))%list |}).
Proof.
  intros filename command outcome.
  unfold CheckOcr.run_ocr_for_file, CheckOcr.ocr_command.
  fold filename. fold command.
  unfold bind at 1. rewrite print_run. cbv beta iota.
  unfold try_except, bind, emit, call, print. cbn [world trace].
  fold outcome. destruct outcome as [r w'].
  destruct r as [[]|e]; cbn [fst snd invoker_result invoker_report].
  - unfold emit. cbn [world trace]. rewrite <- !app_assoc. reflexivity.
  - destruct e; cbn [exn_str]; unfold emit; cbn [world trace];
      rewrite <- ?app_assoc; reflexivity.
Qed.

Lemma run_ocr_for_file_spawns (input_file output_folder : string)
  (pages_to_ocr : list nat) (st : state World) :
  spawns (trace (snd (CheckOcr.run_ocr_for_file input_file output_folder
                        pages_to_ocr st)))
  = (spawns (trace st) ++
       match pages_to_ocr with
       | [] => []
       | _ :: _ =>
           [[ "ocrmypdf"; "-l"; "ell+eng+tur"; "--redo-ocr";
              "--pages"; PyStr.join "," (map PyStr.str_nat pages_to_ocr);
              input_file;
              os_path_join output_folder (os_path_basename input_file) ]]
       end)%list.
Proof.
  destruct pages_to_ocr as [|n rest].
  - rewrite run_ocr_for_file_empty. cbn [snd trace].
    rewrite spawns_app. reflexivity.
  - rewrite run_ocr_for_file_pages. cbn [snd trace].
    rewrite spawns_app. cbn [spawns]. f_equal. f_equal.
    by_outcome.
Qed.

(** The loop of the analysis leaves the state as it found it. *)
Lemma analyze_loop_state (pdf_pages : list Page) (indices : list nat) :
  forall acc counts (st : state World),
    snd (CheckOcr.analyze_loop pdf_pages indices acc counts st) = st.
Proof.
  induction indices as [|i indices IH]; intros acc counts st.
  - reflexivity.
  - cbn [CheckOcr.analyze_loop]. unfold bind at 1. unfold getitem.
    destruct (nth_error pdf_pages i) as [page|]; [|reflexivity].
    unfold ret at 1. unfold bind at 1. unfold lift at 1.
    destruct (extract_text page) as [t|e]; [|reflexivity].
    apply IH.
Qed.

(** Whatever the file, the analysis only prints. *)
Lemma analyze_pdf_pages_frame (file_path : string) (st : state World) :
  exists lines,
    snd (CheckOcr.analyze_pdf_pages file_path st)
    = {| world := world st; trace := (trace st ++ map Printed lines)%list |}.
Proof.
  unfold CheckOcr.analyze_pdf_pages.
  destruct (pypdf_PdfReader (world st) file_path) as [reader|e].
  - unfold bind at 1. unfold lift at 1.
    destruct (pages reader) as [pdf_pages|e].
    2:{ exists []. cbn [snd map]. rewrite app_nil_r. destruct st; reflexivity. }
    unfold bind at 1. rewrite print_run. cbv beta iota.
    unfold bind at 1.
    match goal with
    | |- context [CheckOcr.analyze_loop ?a ?b ?c ?d ?s] =>
        pose proof (analyze_loop_state a b c d s) as Hst;
        destruct (CheckOcr.analyze_loop a b c d s) as [[[l counts]|e] st1]
    end; cbn [snd] in Hst; subst st1.
    2:{ eexists [_]. reflexivity. }
    do 2 step_print.
    unfold bind at 1; rewrite for_each_print; cbv beta iota; cbn [world trace].
    unfold bind at 1.
    destruct l as [|n l]; rewrite print_run; cbv beta iota; cbn [world trace];
      unfold bind; rewrite print_run; unfold ret; cbn [snd world trace];
      eexists (_ :: _ :: _ :: (counts ++ [_; _])%list);
      f_equal; cbn [map app]; rewrite map_app; cbn [map];
      rewrite <- !app_assoc; reflexivity.
  - destruct e; eexists [_]; reflexivity.
Qed.

End Invoker.

Section Batch.

Context {World : Type} {os : OS World} {path : OsPath}.

Lemma process_file_run (source_folder output_folder filename : string)
  (pages_to_ocr : list nat) (st st1 : state World) :
  CheckOcr.analyze_pdf_pages (os_path_join source_folder filename) st
  = (Return pages_to_ocr, st1) ->
  CheckOcr.process_file source_folder output_folder filename st
  = (CheckOcr.run_ocr_for_file (os_path_join source_folder filename)
       output_folder pages_to_ocr ;;
     print (PyStr.repeat "-" 30)) st1.
Proof.
  intros Hrun. unfold CheckOcr.process_file.
  unfold bind at 1. rewrite Hrun. reflexivity.
Qed.

(** C3.  With an empty page list [run_ocr_for_file] only prints that it
    skips the file: no OCR process is started and the world is as
    before.  In general the invoker starts one process when the list is
    non-empty and none otherwise; so in the loop of [process_folder], a
    file whose analysis gives the empty list starts no process. *)
Theorem no_pages_no_ocr :
  (forall input_file output_folder (st : state World),
     CheckOcr.run_ocr_for_file input_file output_folder [] st
     = (Return tt,
        {| world := world st;
           trace :=
             (trace st ++
                [Printed ("No pages to OCR for " ++ input_file
                            ++ ". Skipping OCR step.")])%list |}))
  /\ (forall input_file output_folder pages_to_ocr (st : state World),
        spawns (trace (snd (CheckOcr.run_ocr_for_file input_file
                              output_folder pages_to_ocr st)))
        = (spawns (trace st) ++
             match pages_to_ocr with
             | [] => []
             | _ :: _ =>
                 [[ "ocrmypdf"; "-l"; "ell+eng+tur"; "--redo-ocr";
                    "--pages";
                    PyStr.join "," (map PyStr.str_nat pages_to_ocr);
                    input_file;
                    os_path_join output_folder
                      (os_path_basename input_file) ]]
             end)%list)
  /\ (forall source_folder output_folder filename (st : state World),
        fst (CheckOcr.analyze_pdf_pages
               (os_path_join source_folder filename) st) = Return [] ->
        let st' :=
          snd (CheckOcr.process_file source_folder output_folder filename st)
        in
        spawns (trace st') = spawns (trace st) /\ world st' = world st).
Proof.
  split; [|split].
  - intros. apply run_ocr_for_file_empty.
  - intros. apply run_ocr_for_file_spawns.
  - intros source_folder output_folder filename st Hempty.
    destruct (analyze_pdf_pages_frame (os_path_join source_folder filename) st)
      as [lines Hframe].
    destruct (CheckOcr.analyze_pdf_pages (os_path_join source_folder filename)
                st) as [r st1] eqn:Hrun.
    cbn [fst snd] in *. subst r st1.
    rewrite (process_file_run _ output_folder _ _ _ _ Hrun).
    unfold bind. rewrite run_ocr_for_file_empty. rewrite print_run.
    cbn [snd world trace]. rewrite !spawns_app, spawns_printed.
    cbn [spawns]. rewrite !app_nil_r. split; reflexivity.
Qed.


End Batch.

Lemma no_pages_no_ocr_witness :
  fst (CheckOcr.analyze_pdf_pages (os_path_join "archive" "text.pdf")
         (start (archive (Installed (fun _ => 0%Z))))) = Return []
  /\ spawns (trace (snd (CheckOcr.process_file "archive" "ocr" "text.pdf"
                           (start (archive (Installed (fun _ => 0%Z)))))))
     = spawns (trace (start (archive (Installed (fun _ => 0%Z)))))
  /\ world (snd (CheckOcr.process_file "archive" "ocr" "text.pdf"
                   (start (archive (Installed (fun _ => 0%Z))))))
     = world (start (archive (Installed (fun _ => 0%Z)))).
Proof.
  assert (H : fst (CheckOcr.analyze_pdf_pages
                     (os_path_join "archive" "text.pdf")
                     (start (archive (Installed (fun _ => 0%Z)))))
              = Return []) by (vm_compute; reflexivity).
  exact (conj H
           (proj2 (proj2 (@no_pages_no_ocr Disk disk_os posix_path))
              "archive" "ocr" "text.pdf"
              (start (archive (Installed (fun _ => 0%Z)))) H)).
Defined.



(* ===================================================================== *)
(** ** The whole-file worker and [main] of the batch variant *)
(* ===================================================================== *)

Section Worker.

Context {World : Type} {os : OS World} {path : OsPath}.

(** The worker prints, runs the tool once and returns what the run
    gave. *)
Lemma run_ocr_on_file_run
  (input_file source_dir output_dir languages suffix : string)
  (st : state World) :
  let output_file := fst (os_path_splitext input_file) ++ suffix ++ ".pdf" in
  let command :=
    [ "ocrmypdf"; "-l"; languages; "--force-ocr";
      os_path_join source_dir input_file;
      os_path_join output_dir output_file ] in
  let outcome := subprocess_run (world st) command in
  let pid := os_getpid (world st) in
  Ocr.run_ocr_on_file input_file source_dir output_dir languages suffix st
  = (worker_result pid input_file (fst outcome),
     {| world := snd outcome;
        trace :=
          (trace st ++
             Printed ("[Process " ++ PyStr.str_nat pid
                        ++ "] STARTING: OCR for '" ++ input_file ++ "'")
             :: Spawn command
             :: worker_report pid output_file (fst outcome))%list |}).
Proof.
  intros output_file command outcome pid.
  unfold Ocr.run_ocr_on_file, Ocr.ocr_command, Ocr.output_file_of.
  fold output_file. fold command.
  unfold bind at 1. unfold ask at 1. fold pid.
  unfold bind at 1. rewrite print_run. cbv beta iota.
  unfold try_except, bind, emit, call, print, ret. cbn [world trace].
  fold outcome. destruct outcome as [r w'].
  destruct r as [[]|e]; cbn [fst snd worker_result worker_report].
  - unfold emit. cbn [world trace]. rewrite <- !app_assoc. reflexivity.
  - destruct e; unfold ret; rewrite <- ?app_assoc; reflexivity.
Qed.

Lemma for_each_announce (files : list string) (st : state World) :
  for_each files Ocr.announce st
  = (Return tt,
     {| world := world st; trace := (trace st ++ announced files)%list |}).
Proof.
  revert st. induction files as [|f files IH]; intros st.
  - cbn [for_each announced flat_map]. unfold ret. rewrite app_nil_r.
    destruct st; reflexivity.
  - cbn [for_each]. unfold bind at 1. unfold Ocr.announce at 1.
    unfold bind at 1. rewrite print_run. cbv beta iota.
    unfold emit at 1. cbn [world trace]. rewrite IH. cbn [world trace].
    cbn [announced flat_map app]. rewrite <- !app_assoc. reflexivity.
Qed.

(** What [main] adds to the trace when the source directory lists as
    [all_files]. *)
Lemma main_listed (all_files : list string) (st : state World) :
  os_listdir (world st) Ocr.SOURCE_DIRECTORY = Return all_files ->
  Ocr.main st
  = (Return tt,
     {| world := world st;
        trace :=
          (trace st ++
             match Ocr.files_to_process all_files with
             | [] => [Printed "No new PDF files to process found."]
             | _ :: _ =>
                 Printed ("Found "
                            ++ PyStr.str_nat
                                 (length (Ocr.files_to_process all_files))
                            ++ " PDF file(s) to process:")
                 :: (announced (Ocr.files_to_process all_files)
                       ++ [Printed (PyStr.repeat "-" 40)])
             end)%list |}).
Proof.
  intros Hlist. unfold Ocr.main.
  unfold bind at 1. unfold try_except, bind, query, ret. rewrite Hlist.
  destruct (Ocr.files_to_process all_files) as [|f files] eqn:E.
  - rewrite print_run. reflexivity.
  - rewrite print_run. cbv beta iota. rewrite for_each_announce.
    cbn [world trace]. rewrite print_run. cbn [world trace].
    rewrite <- !app_assoc. reflexivity.
Qed.

(** What [main] does when the source directory cannot be listed. *)
Lemma main_unlisted (e : exn) (st : state World) :
  os_listdir (world st) Ocr.SOURCE_DIRECTORY = Raise e ->
  Ocr.main st
  = match e with
    | FileNotFoundError _ =>
        (Return tt,
         {| world := world st;
            trace :=
              (trace st ++
                 [Printed "Error: The directory 'archive' was not found."])%list |})
    | _ => (Raise e, st)
    end.
Proof.
  intros Hlist. unfold Ocr.main.
  unfold bind at 1. unfold try_except, bind, query, ret. rewrite Hlist.
  destruct e; reflexivity.
Qed.

Lemma announced_quiet (files : list string) :
  spawns (announced files) = [] /\ pools (announced files) = []
  /\ partials (announced files) = map (fun _ => "run_ocr_on_file") files.
Proof.
  induction files as [|f files (IH1 & IH2 & IH3)]; [repeat split|].
  cbn [announced flat_map app spawns pools partials map].
  fold (announced files). rewrite IH1, IH2, IH3. repeat split.
Qed.

End Worker.

Lemma printed_app (a b : list event) :
  printed (a ++ b) = (printed a ++ printed b)%list.
Proof.
  induction a as [|ev a IH]; simpl; [reflexivity|].
  destruct ev; simpl; rewrite IH; reflexivity.
Qed.

Lemma printed_announced (files : list string) :
  printed (announced files) = map (fun f => "  - " ++ f) files.
Proof.
  induction files as [|f files IH]; [reflexivity|].
  cbn [announced flat_map app printed map]. fold (announced files).
  rewrite IH. reflexivity.
Qed.

Lemma to_process_spec (f : string) :
  Ocr.to_process f = true <->
  (exists p, PyStr.lower f = p ++ ".pdf")
  /\ ~ (exists p, PyStr.lower f = p ++ "_ocr.pdf").
Proof.
  unfold Ocr.to_process. rewrite andb_true_iff, negb_true_iff.
  change (Ocr.OUTPUT_SUFFIX ++ ".pdf") with "_ocr.pdf".
  rewrite endswith_spec. rewrite <- (endswith_spec _ "_ocr.pdf").
  rewrite not_true_iff_false. reflexivity.
Qed.

Section Scan.

Context {World : Type} {os : OS World} {path : OsPath}.

(** C8.  The scan of the batch variant keeps exactly the names that,
    lowercased, end with [".pdf"] and do not end with ["_ocr.pdf"];
    these are the names [main] lists, in the order of the directory; and
    no name [run_ocr_on_file] gives an output file gets through. *)
Theorem scan_selects_unprocessed_pdfs :
  (forall all_files f,
     In f (Ocr.files_to_process all_files) <->
     In f all_files
     /\ (exists p, PyStr.lower f = p ++ ".pdf")
     /\ ~ (exists p, PyStr.lower f = p ++ "_ocr.pdf"))
  /\ (forall all_files input_file,
        ~ In (Ocr.output_file_of input_file Ocr.OUTPUT_SUFFIX)
             (Ocr.files_to_process all_files))
  /\ (forall all_files (st : state World),
        os_listdir (world st) Ocr.SOURCE_DIRECTORY = Return all_files ->
        let files :=
          filter
            (fun f =>
               PyStr.endswith (PyStr.lower f) ".pdf"
               && negb (PyStr.endswith (PyStr.lower f) "_ocr.pdf"))
            all_files in
        printed (trace (snd (Ocr.main st)))
        = (printed (trace st) ++
             match files with
             | [] => ["No new PDF files to process found."]
             | _ :: _ =>
                 ("Found " ++ PyStr.str_nat (length files)
                    ++ " PDF file(s) to process:")%string
                 :: (map (fun f => ("  - " ++ f)%string) files
                       ++ [PyStr.repeat "-" 40])
             end)%list).
Proof.
  split; [|split].
  - intros all_files f. unfold Ocr.files_to_process.
    rewrite filter_In, to_process_spec. reflexivity.
  - intros all_files input_file Hin. unfold Ocr.files_to_process in Hin.
    apply filter_In in Hin. destruct Hin as [_ Hsel].
    apply to_process_spec in Hsel. destruct Hsel as [_ Hnot]. apply Hnot.
    unfold Ocr.output_file_of.
    exists (PyStr.lower (fst (os_path_splitext input_file))).
    rewrite lower_app. reflexivity.
  - intros all_files st Hlist files.
    rewrite (main_listed all_files st Hlist). cbn [snd trace].
    rewrite printed_app. f_equal.
    change (Ocr.files_to_process all_files) with files.
    destruct files as [|f files']; [reflexivity|].
    cbn [printed]. rewrite printed_app, printed_announced. reflexivity.
Qed.

(** C7, amended.  Whatever the world, [main] of the batch variant builds
    no pool and starts no process, and leaves the world as it found it:
    when the directory lists, it builds one [partial] of
    [run_ocr_on_file] for each selected file and drops it.  As every
    call of [run_ocr_on_file] starts exactly one process, none is
    made. *)
Theorem main_dispatches_nothing :
  (forall st : state World,
     world (snd (Ocr.main st)) = world st
     /\ spawns (trace (snd (Ocr.main st))) = spawns (trace st)
     /\ pools (trace (snd (Ocr.main st))) = pools (trace st))
  /\ (forall all_files (st : state World),
        os_listdir (world st) Ocr.SOURCE_DIRECTORY = Return all_files ->
        partials (trace (snd (Ocr.main st)))
        = (partials (trace st)
             ++ map (fun _ => "run_ocr_on_file")
                  (Ocr.files_to_process all_files))%list)
  /\ (forall input_file source_dir output_dir languages suffix
        (st : state World),
        spawns (trace (snd (Ocr.run_ocr_on_file input_file source_dir
                              output_dir languages suffix st)))
        = (spawns (trace st)
             ++ [[ "ocrmypdf"; "-l"; languages; "--force-ocr";
                   os_path_join source_dir input_file;
                   os_path_join output_dir
                     (fst (os_path_splitext input_file) ++ suffix
                        ++ ".pdf")%string ]])%list).
Proof.
  split; [|split].
  - intros st.
    destruct (os_listdir (world st) Ocr.SOURCE_DIRECTORY) as [all_files|e]
      eqn:Hlist.
    + rewrite (main_listed all_files st Hlist). cbn [snd world trace].
      rewrite spawns_app, pools_app.
      destruct (announced_quiet (Ocr.files_to_process all_files))
        as (Hs & Hp & _).
      destruct (Ocr.files_to_process all_files) as [|f files].
      * cbn [spawns pools]. rewrite !app_nil_r. repeat split.
      * cbn [spawns pools]. rewrite spawns_app, pools_app, Hs, Hp.
        cbn [spawns pools app]. rewrite !app_nil_r. repeat split.
    + rewrite (main_unlisted e st Hlist).
      destruct e; cbn [snd world trace]; repeat split;
        rewrite ?spawns_app, ?pools_app; cbn [spawns pools];
        rewrite ?app_nil_r; reflexivity.
  - intros all_files st Hlist.
    rewrite (main_listed all_files st Hlist). cbn [snd trace].
    rewrite partials_app. f_equal.
    destruct (announced_quiet (Ocr.files_to_process all_files))
      as (_ & _ & Hp).
    destruct (Ocr.files_to_process all_files) as [|f files]; [reflexivity|].
    cbn [partials]. rewrite partials_app, Hp. cbn [partials].
    rewrite app_nil_r. reflexivity.
  - intros. rewrite run_ocr_on_file_run. cbn [snd trace].
    rewrite spawns_app. cbn [spawns]. f_equal. f_equal.
    by_outcome.
Qed.

(** C9.  Both invokers name the languages after [-l] and end their
    command with the input path followed by the output path.  The
    selective one passes [--redo-ocr] and [--pages] followed by the page
    numbers joined by commas; the whole-file one passes [--force-ocr],
    and [--pages] occurs in its command only if a caller hands it in as
    the language or as a path. *)
Theorem ocr_commands :
  (forall input_file output_folder n rest (st : state World),
     spawns (trace (snd (CheckOcr.run_ocr_for_file input_file output_folder
                           (n :: rest) st)))
     = (spawns (trace st)
          ++ [[ "ocrmypdf"; "-l"; "ell+eng+tur"; "--redo-ocr"; "--pages";
                String.concat "," (map PyStr.str_nat (n :: rest));
                input_file;
                os_path_join output_folder
                  (os_path_basename input_file) ]])%list)
  /\ (forall input_file source_dir output_dir languages suffix
        (st : state World),
        let input_path := os_path_join source_dir input_file in
        let output_path :=
          os_path_join output_dir
            (fst (os_path_splitext input_file) ++ suffix ++ ".pdf") in
        let command :=
          [ "ocrmypdf"; "-l"; languages; "--force-ocr";
            input_path; output_path ] in
        spawns (trace (snd (Ocr.run_ocr_on_file input_file source_dir
                              output_dir languages suffix st)))
        = (spawns (trace st) ++ [command])%list
        /\ (In "--pages" command ->
            languages = "--pages" \/ input_path = "--pages"
            \/ output_path = "--pages")).
Proof.
  split.
  - intros. rewrite run_ocr_for_file_spawns. reflexivity.
  - intros. split.
    + subst command input_path output_path.
      rewrite run_ocr_on_file_run. cbn [snd trace].
      rewrite spawns_app. cbn [spawns]. f_equal. f_equal.
      by_outcome.
    + subst command. cbn [In].
      intros [H|[H|[H|[H|[H|[H|[]]]]]]]; try discriminate H; auto.
Qed.

End Scan.

(* ===================================================================== *)
(** ** Failures of the OCR tool *)
(* ===================================================================== *)

Section Totality.

Context {World : Type} {os : OS World} {path : OsPath}.

Hypothesis tool_handled :
  forall w command, tool_outcome (fst (subprocess_run w command)).
Hypothesis pdf_analysable : forall w p, analysable (pypdf_PdfReader w p).

Lemma analyze_pdf_pages_returns (file_path : string) (st : state World) :
  exists pages_to_ocr, fst (CheckOcr.analyze_pdf_pages file_path st)
                       = Return pages_to_ocr.
Proof.
  pose proof (pdf_analysable (world st) file_path) as Hpdf.
  destruct (pypdf_PdfReader (world st) file_path) as [reader|e] eqn:Hopen.
  - destruct Hpdf as (pdf_pages & texts & Hpages & Hmap).
    destruct (analyze_pdf_pages_readable file_path texts st) as [lines Hrun].
    { exists reader, pdf_pages. repeat split; assumption. }
    exists (needs_ocr texts). rewrite Hrun. reflexivity.
  - exists []. rewrite (analyze_pdf_pages_unreadable file_path e st Hopen).
    reflexivity.
Qed.

Lemma run_ocr_for_file_returns (input_file output_folder : string)
  (pages_to_ocr : list nat) (st : state World) :
  fst (CheckOcr.run_ocr_for_file input_file output_folder pages_to_ocr st)
  = Return tt.
Proof.
  destruct pages_to_ocr as [|n rest]; [reflexivity|].
  rewrite run_ocr_for_file_pages. cbn [fst].
  match goal with
  | |- invoker_result (fst (subprocess_run ?w ?c)) = _ =>
      pose proof (tool_handled w c) as Hout;
      destruct (fst (subprocess_run w c)) as [[]|[]]
  end; simpl in Hout; try reflexivity; contradiction.
Qed.

Lemma process_file_returns (source_folder output_folder filename : string)
  (st : state World) :
  fst (CheckOcr.process_file source_folder output_folder filename st)
  = Return tt.
Proof.
  destruct (analyze_pdf_pages_returns (os_path_join source_folder filename) st)
    as [pages_to_ocr Hpages].
  destruct (CheckOcr.analyze_pdf_pages (os_path_join source_folder filename) st)
    as [r st1] eqn:Hrun.
  cbn [fst] in Hpages. subst r.
  rewrite (process_file_run _ output_folder _ _ _ _ Hrun).
  unfold bind.
  pose proof (run_ocr_for_file_returns (os_path_join source_folder filename)
                output_folder pages_to_ocr st1) as Hret.
  destruct (CheckOcr.run_ocr_for_file _ _ _ st1) as [r st2].
  cbn [fst] in Hret. subst r. reflexivity.
Qed.

Lemma process_files_return (source_folder output_folder : string)
  (file_list : list string) :
  forall st : state World,
    fst (for_each file_list
           (CheckOcr.process_file source_folder output_folder) st)
    = Return tt.
Proof.
  induction file_list as [|f file_list IH]; intros st; [reflexivity|].
  cbn [for_each]. unfold bind.
  pose proof (process_file_returns source_folder output_folder f st) as Hf.
  destruct (CheckOcr.process_file source_folder output_folder f st)
    as [r st1].
  cbn [fst] in Hf. subst r. apply IH.
Qed.

Hypothesis makedirs_succeeds :
  forall w d, fst (os_makedirs w d) = Return tt.
Hypothesis makedirs_keeps :
  forall w d d', os_path_isdir w d = true ->
                 os_path_isdir (snd (os_makedirs w d')) d = true.
Hypothesis listdir_succeeds :
  forall w d, os_path_isdir w d = true ->
              exists names, os_listdir w d = Return names.

Lemma process_folder_returns (source_folder output_folder : string)
  (st : state World) :
  fst (CheckOcr.process_folder source_folder output_folder st) = Return tt.
Proof.
  unfold CheckOcr.process_folder.
  unfold bind at 1. unfold ask at 1.
  destruct (os_path_isdir (world st) source_folder) eqn:Hdir;
    cbn [negb]; [|reflexivity].
  unfold bind at 1. unfold ask at 1.
  assert (Hloop :
    forall st1 : state World,
      os_path_isdir (world st1) source_folder = true ->
      fst ((names <- query (fun w => os_listdir w source_folder) ;;
            let file_list :=
              filter (fun f => PyStr.endswith f ".pdf") names in
            match file_list with
            | [] =>
                print ("No PDF files found in '" ++ source_folder ++ "'.")
            | _ :: _ =>
                print ("Found " ++ PyStr.str_nat (length file_list)
                         ++ " PDF files to process.") ;;
                print (PyStr.repeat "-" 30) ;;
                for_each file_list
                  (CheckOcr.process_file source_folder output_folder)
            end) st1) = Return tt).
  { intros st1 Hdir1.
    destruct (listdir_succeeds _ _ Hdir1) as [names Hnames].
    unfold bind at 1. unfold query at 1. rewrite Hnames. cbv zeta.
    destruct (filter (fun f => PyStr.endswith f ".pdf") names)
      as [|f file_list]; [reflexivity|].
    do 2 step_print.
    apply process_files_return. }
  destruct (os_path_exists (world st) output_folder); cbn [negb].
  - unfold bind at 1. unfold ret at 1. apply Hloop. exact Hdir.
  - unfold bind at 1. unfold bind at 1. unfold emit at 1.
    unfold bind at 1. unfold call at 1. cbn [world trace].
    pose proof (makedirs_succeeds (world st) output_folder) as Hmk.
    pose proof (makedirs_keeps (world st) source_folder output_folder Hdir)
      as Hkeep.
    destruct (os_makedirs (world st) output_folder) as [r w1].
    cbn [fst snd] in Hmk, Hkeep. subst r.
    rewrite print_run. cbv beta iota. apply Hloop. exact Hkeep.
Qed.

End Totality.

Section Failure.

Context {World : Type} {os : OS World} {path : OsPath}.


End Failure.

(* ===================================================================== *)
(** ** The scripts on the small world *)
(* ===================================================================== *)

Lemma disk_tool_handled (w : Disk) (command : list string) :
  tool_outcome (fst (subprocess_run w command)).
Proof.
  cbn [subprocess_run disk_os]. unfold disk_run.
  destruct (disk_tool w) as [|status]; [exact I|].
  destruct (status command =? 0)%Z; exact I.
Qed.

Lemma disk_pdf_analysable (w : Disk) (p : string) :
  analysable (pypdf_PdfReader w p).
Proof.
  cbn [pypdf_PdfReader disk_os]. unfold disk_PdfReader.
  destruct (existsb (String.eqb p) (disk_broken w)); [exact I|].
  destruct (assoc p (disk_pdfs w)) as [texts|]; [|exact I].
  exists (map page_of texts), texts. split; [reflexivity|].
  rewrite map_map. reflexivity.
Qed.

Lemma disk_makedirs_succeeds (w : Disk) (d : string) :
  fst (os_makedirs w d) = Return tt.
Proof. reflexivity. Qed.

Lemma disk_makedirs_keeps (w : Disk) (d d' : string) :
  os_path_isdir w d = true -> os_path_isdir (snd (os_makedirs w d')) d = true.
Proof.
  cbn [os_path_isdir os_makedirs disk_os]. unfold disk_isdir, disk_makedirs.
  cbn [snd disk_dirs assoc]. intros H.
  destruct (String.eqb d d'); [reflexivity|exact H].
Qed.

Lemma disk_listdir_succeeds (w : Disk) (d : string) :
  os_path_isdir w d = true -> exists names, os_listdir w d = Return names.
Proof.
  cbn [os_path_isdir os_listdir disk_os]. unfold disk_isdir, disk_listdir.
  destruct (assoc d (disk_dirs w)) as [names|]; [|discriminate].
  intros _. exists names. reflexivity.
Qed.


(** C7 as stated fails: on the archive, [main] builds five [partial]
    objects and no pool. *)
Lemma pool_counterexample :
  ~ (exists processes,
       In (Pool processes) (trace (snd (Ocr.main (start (archive Missing))))))
  /\ partials (trace (snd (Ocr.main (start (archive Missing)))))
     = [ "run_ocr_on_file"; "run_ocr_on_file"; "run_ocr_on_file";
         "run_ocr_on_file"; "run_ocr_on_file" ]
  /\ Ocr.files_to_process
       [ "Tome 1.pdf"; "Tome 1_ocr.pdf"; "notes.txt"; "Tome 2.PDF";
         "broken.pdf"; "gone.pdf"; "text.pdf" ]
     = [ "Tome 1.pdf"; "Tome 2.PDF"; "broken.pdf"; "gone.pdf"; "text.pdf" ].
Proof.
  split; [|split; vm_compute; reflexivity].
  intros [processes Hin]. vm_compute in Hin.
  repeat (destruct Hin as [Hin|Hin]; [discriminate Hin|]).
  exact Hin.
Qed.

Lemma main_dispatches_nothing_witness :
  os_listdir (world (start (archive Missing))) Ocr.SOURCE_DIRECTORY
  = Return [ "Tome 1.pdf"; "Tome 1_ocr.pdf"; "notes.txt"; "Tome 2.PDF";
             "broken.pdf"; "gone.pdf"; "text.pdf" ]
  /\ partials (trace (snd (Ocr.main (start (archive Missing)))))
     = (partials (trace (start (archive Missing)))
          ++ map (fun _ => "run_ocr_on_file")
               (Ocr.files_to_process
                  [ "Tome 1.pdf"; "Tome 1_ocr.pdf"; "notes.txt"; "Tome 2.PDF";
                    "broken.pdf"; "gone.pdf"; "text.pdf" ]))%list.
Proof.
  assert (H : os_listdir (world (start (archive Missing)))
                Ocr.SOURCE_DIRECTORY
              = Return [ "Tome 1.pdf"; "Tome 1_ocr.pdf"; "notes.txt";
                         "Tome 2.PDF"; "broken.pdf"; "gone.pdf"; "text.pdf" ])
    by reflexivity.
  exact (conj H
           (proj1 (proj2 (@main_dispatches_nothing Disk disk_os posix_path))
              _ (start (archive Missing)) H)).
Defined.

Lemma scan_selects_unprocessed_pdfs_witness :
  os_listdir (world (start (archive Missing))) Ocr.SOURCE_DIRECTORY
  = Return [ "Tome 1.pdf"; "Tome 1_ocr.pdf"; "notes.txt"; "Tome 2.PDF";
             "broken.pdf"; "gone.pdf"; "text.pdf" ]
  /\ ~ In (Ocr.output_file_of "Tome 1.pdf" Ocr.OUTPUT_SUFFIX)
          (Ocr.files_to_process
             [ "Tome 1.pdf"; "Tome 1_ocr.pdf"; "notes.txt"; "Tome 2.PDF";
               "broken.pdf"; "gone.pdf"; "text.pdf" ])
  /\ printed (trace (snd (Ocr.main (start (archive Missing)))))
     = [ "Found 5 PDF file(s) to process:";
         "  - Tome 1.pdf"; "  - Tome 2.PDF"; "  - broken.pdf";
         "  - gone.pdf"; "  - text.pdf";
         "----------------------------------------" ].
Proof.
  assert (H : os_listdir (world (start (archive Missing)))
                Ocr.SOURCE_DIRECTORY
              = Return [ "Tome 1.pdf"; "Tome 1_ocr.pdf"; "notes.txt";
                         "Tome 2.PDF"; "broken.pdf"; "gone.pdf"; "text.pdf" ])
    by reflexivity.
  pose proof (@scan_selects_unprocessed_pdfs Disk disk_os posix_path)
    as (_ & Hout & Hmain).
  exact (conj H (conj (Hout _ "Tome 1.pdf")
                   (Hmain _ (start (archive Missing)) H))).
Defined.

(** The worker names its output after the input: ["Tome 1.PDF"] gives
    ["Tome 1_ocr.pdf"], which the scan leaves out. *)
Example output_file_of_tome :
  Ocr.output_file_of "Tome 1.PDF" Ocr.OUTPUT_SUFFIX = "Tome 1_ocr.pdf"
  /\ Ocr.to_process "Tome 1_ocr.pdf" = false
  /\ Ocr.to_process "Tome 1.PDF" = true.
Proof. repeat split. Qed.

(** The selective script on the archive with a tool that always fails:
    one run for the scan, none for the other files, exit status 0. *)
Example script_on_archive :
  spawns (trace (snd (CheckOcr.script
                        (start (archive (Installed (fun _ => 2%Z)))))))
  = [[ "ocrmypdf"; "-l"; "ell+eng+tur"; "--redo-ocr"; "--pages"; "1,3";
       "archive/Tome 1.pdf"; "ocr/Tome 1.pdf" ]]
  /\ fst (CheckOcr.script (start (archive (Installed (fun _ => 2%Z)))))
     = Return tt.
Proof. split; vm_compute; reflexivity. Qed.

(* ===================================================================== *)
(** ** More on the analysis: its report, blank pages, documents joined *)
(* ===================================================================== *)

Lemma printed_map (lines : list string) : printed (map Printed lines) = lines.
Proof.
  induction lines as [|l lines IH]; simpl; [reflexivity|].
  rewrite IH. reflexivity.
Qed.

Lemma made_dirs_app (a b : list event) :
  made_dirs (a ++ b) = (made_dirs a ++ made_dirs b)%list.
Proof.
  induction a as [|ev a IH]; simpl; [reflexivity|].
  destruct ev; simpl; rewrite IH; reflexivity.
Qed.

Lemma made_dirs_printed (lines : list string) :
  made_dirs (map Printed lines) = [].
Proof.
  induction lines as [|l lines IH]; simpl; auto.
Qed.

Lemma lstrip_blank (s : string) : blank s = true -> PyStr.lstrip s = "".
Proof.
  induction s as [|c s IH]; simpl; [reflexivity|].
  destruct (PyStr.isspace c); simpl; [exact IH|discriminate].
Qed.

Lemma strip_blank (s : string) : blank s = true -> PyStr.strip s = "".
Proof.
  intros H. unfold PyStr.strip. rewrite (lstrip_blank s H). reflexivity.
Qed.

Lemma short_page_app_l (a b : list string) (n : nat) :
  1 <= n <= length a -> short_page (a ++ b) n = short_page a n.
Proof.
  intros Hn. unfold short_page. rewrite nth_error_app1 by lia. reflexivity.
Qed.

Lemma short_page_app_r (a b : list string) (n : nat) :
  1 <= n -> short_page (a ++ b) (length a + n) = short_page b n.
Proof.
  intros Hn. unfold short_page. rewrite nth_error_app2 by lia.
  replace (length a + n - 1 - length a) with (n - 1) by lia. reflexivity.
Qed.

Lemma needs_ocr_app (a b : list string) :
  needs_ocr (a ++ b)
  = (needs_ocr a ++ map (fun n => length a + n) (needs_ocr b))%list.
Proof.
  unfold needs_ocr. rewrite length_app, seq_app, filter_app. f_equal.
  - apply filter_ext_in. intros n Hn. apply in_seq in Hn.
    apply short_page_app_l. lia.
  - replace (seq (1 + length a) (length b))
      with (map (fun n => length a + n) (seq 1 (length b))).
    + rewrite filter_map_swap. f_equal.
      apply filter_ext_in. intros n Hn. apply in_seq in Hn.
      apply short_page_app_r. lia.
    + clear. generalize 1 as k. induction (length b) as [|m IH]; intros k.
      * reflexivity.
      * cbn [seq map]. rewrite IH. f_equal. lia.
Qed.

Section Report.

Context {World : Type} {os : OS World}.

Lemma analyze_loop_report (pdf_pages : list Page) (texts : list string) :
  map extract_text pdf_pages = map (@Return string) texts ->
  forall m k acc counts (st : state World),
    k + m <= length texts ->
    CheckOcr.analyze_loop pdf_pages (seq k m) acc counts st
    = (Return ((acc ++ filter (short_page texts) (seq (k + 1) m))%list,
               (counts ++ map (count_line texts) (seq k m))%list), st).
Proof.
  intros Hmap. induction m as [|m IH]; intros k acc counts st Hk.
  - simpl. rewrite !app_nil_r. reflexivity.
  - destruct (extracted_nth pdf_pages texts k Hmap) as (page & t & Hp & Ht & Hn);
      [lia|].
    cbn [seq CheckOcr.analyze_loop].
    unfold bind at 1. unfold getitem. rewrite Hp. unfold ret at 1.
    unfold bind at 1. unfold lift at 1. rewrite Ht. cbv zeta.
    rewrite IH by lia.
    replace (S k + 1) with (S (k + 1)) by lia.
    cbn [filter map]. unfold short_page at 2.
    replace (k + 1 - 1) with k by lia. rewrite Hn.
    unfold count_line at 2. rewrite (nth_error_nth texts k "" Hn).
    destruct (PyStr.len (PyStr.strip t) <=? CheckOcr.THRESHOLD);
      rewrite <- ?app_assoc; reflexivity.
Qed.

(** The whole run of the analysis on a readable PDF. *)
Lemma analyze_pdf_pages_run (file_path : string) (texts : list string)
  (st : state World) :
  readable (world st) file_path texts ->
  CheckOcr.analyze_pdf_pages file_path st
  = (Return (needs_ocr texts),
     {| world := world st;
        trace :=
          (trace st
             ++ map Printed
                  (("Analyzing '" ++ file_path ++ "' ("
                      ++ PyStr.str_nat (length texts) ++ " pages)...")%string
                   :: (PyStr.nl ++ "--- Analysis Complete ---")%string
                   :: "Character counts per page:"%string
                   :: map (count_line texts) (seq 0 (length texts))
                   ++ [ match needs_ocr texts with
                        | [] =>
                            "Found no pages that need OCR. The document appears to be fully searchable."%string
                        | _ :: _ =>
                            ("Found "
                               ++ PyStr.str_nat (length (needs_ocr texts))
                               ++ " pages that likely need OCR.")%string
                        end;
                        "-------------------------"%string ]))%list |}).
Proof.
  intros (reader & pdf_pages & Hopen & Hpages & Hmap).
  assert (Hlen : length pdf_pages = length texts).
  { rewrite <- (length_map extract_text), Hmap. apply length_map. }
  unfold CheckOcr.analyze_pdf_pages. rewrite Hopen.
  unfold bind at 1. unfold lift at 1. rewrite Hpages.
  step_print. unfold bind at 1.
  rewrite (analyze_loop_report pdf_pages texts Hmap) by lia.
  cbn [app]. rewrite Hlen. change (0 + 1) with 1.
  fold (needs_ocr texts). cbv beta iota.
  do 2 step_print.
  unfold bind at 1; rewrite for_each_print; cbv beta iota; cbn [world trace].
  unfold bind at 1.
  destruct (needs_ocr texts) as [|n l]; rewrite print_run;
    cbv beta iota; cbn [world trace];
    unfold bind; rewrite print_run; unfold ret; cbn [world trace];
    f_equal; f_equal; cbn [map app]; rewrite map_app; cbn [map app];
    rewrite <- !app_assoc; reflexivity.
Qed.

(** X7.  On a readable PDF of [n] pages the analysis prints, in this
    order: the line naming the file and [n]; the two header lines; for
    each page, in document order, its number and the length of its
    stripped text; the number of pages found, which is the length of the
    list it returns, or the line saying that none was found; and the
    closing rule. *)
Theorem analysis_report (file_path : string) (texts : list string)
  (st : state World) :
  readable (world st) file_path texts ->
  exists found,
    fst (CheckOcr.analyze_pdf_pages file_path st) = Return found
    /\ printed (trace (snd (CheckOcr.analyze_pdf_pages file_path st)))
       = (printed (trace st)
            ++ ("Analyzing '" ++ file_path ++ "' ("
                  ++ PyStr.str_nat (length texts) ++ " pages)...")%string
            :: (PyStr.nl ++ "--- Analysis Complete ---")%string
            :: "Character counts per page:"%string
            :: map (fun i =>
                      ("Page " ++ PyStr.str_nat (i + 1) ++ ": "
                         ++ PyStr.str_nat
                              (PyStr.len (PyStr.strip (nth i texts ""))))%string)
                 (seq 0 (length texts))
            ++ [ match found with
                 | [] =>
                     "Found no pages that need OCR. The document appears to be fully searchable."%string
                 | _ :: _ =>
                     ("Found " ++ PyStr.str_nat (length found)
                        ++ " pages that likely need OCR.")%string
                 end;
                 "-------------------------"%string ])%list.
Proof.
  intros Hr. exists (needs_ocr texts).
  rewrite (analyze_pdf_pages_run file_path texts st Hr).
  cbn [fst snd trace]. split; [reflexivity|].
  rewrite printed_app, printed_map. reflexivity.
Qed.

(** X8.  On a readable PDF, a page whose extracted text holds nothing
    but whitespace, however long, is in the list the analysis
    returns. *)
Theorem blank_page_needs_ocr (file_path : string) (texts : list string)
  (st : state World) (i : nat) (t : string) :
  readable (world st) file_path texts ->
  nth_error texts i = Some t ->
  blank t = true ->
  exists found,
    fst (CheckOcr.analyze_pdf_pages file_path st) = Return found
    /\ In (i + 1) found.
Proof.
  intros Hr Hi Hb.
  destruct (analyze_pdf_pages_readable file_path texts st Hr) as [lines Hrun].
  exists (needs_ocr texts). rewrite Hrun. split; [reflexivity|].
  apply needs_ocr_In. exists t. replace (i + 1 - 1) with i by lia.
  rewrite (strip_blank t Hb). unfold CheckOcr.THRESHOLD, PyStr.len. simpl.
  repeat split; [lia|exact Hi|lia].
Qed.

(** X9.  On a readable PDF the analysis returns the empty list exactly
    when every page keeps more than 52 characters after stripping, and
    it returns every page number, 1 to [n], exactly when no page
    does. *)
Theorem searchable_or_scanned (file_path : string) (texts : list string)
  (st : state World) :
  readable (world st) file_path texts ->
  exists found,
    fst (CheckOcr.analyze_pdf_pages file_path st) = Return found
    /\ (found = [] <->
        Forall (fun t => 52 < PyStr.len (PyStr.strip t)) texts)
    /\ (found = seq 1 (length texts) <->
        Forall (fun t => PyStr.len (PyStr.strip t) <= 52) texts).
Proof.
  intros Hr.
  destruct (analyze_pdf_pages_readable file_path texts st Hr) as [lines Hrun].
  exists (needs_ocr texts). rewrite Hrun. split; [reflexivity|].
  assert (Hshort : forall n t, nth_error texts (n - 1) = Some t ->
            short_page texts n = (PyStr.len (PyStr.strip t) <=? 52)).
  { intros n t Hn. unfold short_page. rewrite Hn. reflexivity. }
  split.
  - rewrite Forall_forall. split.
    + intros Hnil t Hin. apply In_nth_error in Hin. destruct Hin as [i Hi].
      destruct (le_lt_dec (PyStr.len (PyStr.strip t)) 52) as [Hle|Hlt];
        [|exact Hlt].
      assert (Hmem : In (i + 1) (needs_ocr texts)).
      { apply needs_ocr_In. exists t. replace (i + 1 - 1) with i by lia.
        unfold CheckOcr.THRESHOLD. repeat split; [lia|exact Hi|exact Hle]. }
      rewrite Hnil in Hmem. contradiction.
    + intros Hall. destruct (needs_ocr texts) as [|n l] eqn:E; [reflexivity|].
      assert (Hmem : In n (needs_ocr texts)) by (rewrite E; left; reflexivity).
      apply needs_ocr_In in Hmem. destruct Hmem as (t & _ & Hn & Hle).
      apply nth_error_In in Hn. apply Hall in Hn.
      unfold CheckOcr.THRESHOLD in Hle. lia.
  - rewrite Forall_forall. unfold needs_ocr. split.
    + intros Hall t Hin. apply In_nth_error in Hin. destruct Hin as [i Hi].
      assert (Hmem : In (i + 1) (seq 1 (length texts))).
      { apply in_seq. assert (i < length texts)
          by (apply nth_error_Some; congruence). lia. }
      rewrite <- Hall in Hmem. apply filter_In in Hmem.
      destruct Hmem as [_ Hs]. rewrite (Hshort (i + 1) t) in Hs.
      * apply Nat.leb_le. exact Hs.
      * replace (i + 1 - 1) with i by lia. exact Hi.
    + intros Hall. apply forallb_filter_id. apply forallb_forall.
      intros n Hn. apply in_seq in Hn.
      destruct (nth_error texts (n - 1)) as [t|] eqn:Ht.
      * rewrite (Hshort n t Ht). apply Nat.leb_le. apply Hall.
        apply nth_error_In in Ht. exact Ht.
      * apply nth_error_None in Ht. lia.
Qed.

(** X10.  Pages are judged one by one: when three readable PDFs hold
    the pages [a], the pages [b] and the pages [a] followed by [b], the
    list for the third is the list for the first followed by the list
    for the second with each number moved up by the number of pages of
    [a]. *)
Theorem analysis_of_joined_documents (path_a path_b path_ab : string)
  (a b : list string) (st : state World) :
  readable (world st) path_a a ->
  readable (world st) path_b b ->
  readable (world st) path_ab (a ++ b)%list ->
  exists found_a found_b,
    fst (CheckOcr.analyze_pdf_pages path_a st) = Return found_a
    /\ fst (CheckOcr.analyze_pdf_pages path_b st) = Return found_b
    /\ fst (CheckOcr.analyze_pdf_pages path_ab st)
       = Return (found_a ++ map (fun n => length a + n) found_b)%list.
Proof.
  intros Ha Hb Hab.
  destruct (analyze_pdf_pages_readable path_a a st Ha) as [la Hra].
  destruct (analyze_pdf_pages_readable path_b b st Hb) as [lb Hrb].
  destruct (analyze_pdf_pages_readable path_ab _ st Hab) as [lab Hrab].
  exists (needs_ocr a), (needs_ocr b).
  rewrite Hra, Hrb, Hrab. cbn [fst]. rewrite needs_ocr_app.
  repeat split.
Qed.

End Report.

(* ===================================================================== *)
(** ** More on the loop of [process_folder] *)
(* ===================================================================== *)

Lemma made_dirs_report (filename : string) (r : result unit) :
  made_dirs (invoker_report filename r) = []
  /\ spawns (invoker_report filename r) = [].
Proof.
  destruct r as [[]|[]]; split; reflexivity.
Qed.

Section Loop.

Context {World : Type} {os : OS World} {path : OsPath}.

Lemma run_ocr_for_file_trace (input_file output_folder : string)
  (pages_to_ocr : list nat) (st : state World) :
  exists added,
    trace (snd (CheckOcr.run_ocr_for_file input_file output_folder
                  pages_to_ocr st))
    = (trace st ++ added)%list
    /\ made_dirs added = []
    /\ spawns added
       = match pages_to_ocr with
         | [] => []
         | _ :: _ =>
             [selective_command input_file output_folder pages_to_ocr]
         end.
Proof.
  destruct pages_to_ocr as [|n rest].
  - rewrite run_ocr_for_file_empty. cbn [snd trace].
    eexists. split; [reflexivity|]. split; reflexivity.
  - rewrite run_ocr_for_file_pages. cbn [snd trace].
    eexists. split; [reflexivity|].
    match goal with
    | |- context [invoker_report ?f ?r] =>
        destruct (made_dirs_report f r) as [Hm Hs]
    end.
    cbn [made_dirs spawns]. rewrite Hm, Hs. split; reflexivity.
Qed.

(** One turn of the loop: what it adds to the trace. *)
Lemma process_file_trace (source_folder output_folder filename : string)
  (st : state World) :
  exists added,
    trace (snd (CheckOcr.process_file source_folder output_folder filename st))
    = (trace st ++ added)%list
    /\ made_dirs added = []
    /\ turn_of source_folder output_folder filename (spawns added).
Proof.
  destruct (analyze_pdf_pages_frame (os_path_join source_folder filename) st)
    as [lines Hframe].
  destruct (CheckOcr.analyze_pdf_pages (os_path_join source_folder filename)
              st) as [[pages_to_ocr|e] st1] eqn:Hrun; cbn [snd] in Hframe.
  - rewrite (process_file_run _ output_folder _ _ _ _ Hrun).
    destruct (run_ocr_for_file_trace (os_path_join source_folder filename)
                output_folder pages_to_ocr st1) as (added & Htr & Hm & Hs).
    unfold bind.
    destruct (CheckOcr.run_ocr_for_file _ _ _ st1) as [[[]|e] st2];
      cbn [snd] in Htr.
    + rewrite print_run. cbn [snd trace]. rewrite Htr, Hframe. cbn [trace].
      exists (map Printed lines ++ added ++ [Printed (PyStr.repeat "-" 30)])%list.
      rewrite <- !app_assoc. split; [reflexivity|].
      rewrite !made_dirs_app, !spawns_app, made_dirs_printed, spawns_printed.
      rewrite Hm, Hs. cbn [made_dirs spawns app]. rewrite app_nil_r.
      split; [reflexivity|].
      destruct pages_to_ocr as [|n rest];
        [left; reflexivity|right; exists n, rest; reflexivity].
    + cbn [snd]. rewrite Htr, Hframe. cbn [trace].
      exists (map Printed lines ++ added)%list.
      rewrite <- !app_assoc. split; [reflexivity|].
      rewrite !made_dirs_app, !spawns_app, made_dirs_printed, spawns_printed.
      rewrite Hm, Hs. cbn [app]. split; [reflexivity|].
      destruct pages_to_ocr as [|n rest];
        [left; reflexivity|right; exists n, rest; reflexivity].
  - unfold CheckOcr.process_file. unfold bind. rewrite Hrun. cbn [snd].
    rewrite Hframe. cbn [trace]. exists (map Printed lines).
    split; [reflexivity|]. rewrite made_dirs_printed, spawns_printed.
    split; [reflexivity|left; reflexivity].
Qed.

(** The whole loop: the files it got through, those it left, and what
    each turn started. *)
Lemma process_files_trace (source_folder output_folder : string)
  (file_list : list string) :
  forall st : state World,
    exists done pending per_file added,
      file_list = (done ++ pending)%list
      /\ Forall2 (turn_of source_folder output_folder) done per_file
      /\ trace (snd (for_each file_list
                       (CheckOcr.process_file source_folder output_folder) st))
         = (trace st ++ added)%list
      /\ spawns added = concat per_file
      /\ made_dirs added = []
      /\ (fst (for_each file_list
                 (CheckOcr.process_file source_folder output_folder) st)
          = Return tt -> pending = []).
Proof.
  induction file_list as [|f file_list IH]; intros st.
  - exists [], [], [], []. cbn [for_each]. unfold ret. cbn [snd fst].
    split; [reflexivity|]. split; [constructor|].
    split; [symmetry; apply app_nil_r|]. repeat split.
  - destruct (process_file_trace source_folder output_folder f st)
      as (added1 & Htr1 & Hm1 & Hturn).
    cbn [for_each]. unfold bind.
    destruct (CheckOcr.process_file source_folder output_folder f st)
      as [[[]|e] st1]; cbn [snd] in Htr1.
    + destruct (IH st1) as (done & pending & per_file & added & Hl & Hf & Htr
                            & Hs & Hm & Hret).
      exists (f :: done), pending, (spawns added1 :: per_file),
        (added1 ++ added)%list.
      split; [rewrite Hl; reflexivity|].
      split; [constructor; assumption|].
      split; [rewrite Htr, Htr1, <- app_assoc; reflexivity|].
      split; [rewrite spawns_app, Hs; reflexivity|].
      split; [rewrite made_dirs_app, Hm, Hm1; reflexivity|exact Hret].
    + exists [f], file_list, [spawns added1], added1. cbn [snd fst].
      cbn [concat app]. rewrite app_nil_r.
      split; [reflexivity|].
      split; [constructor; [exact Hturn|constructor]|].
      split; [exact Htr1|]. split; [reflexivity|].
      split; [exact Hm1|discriminate].
Qed.

(** X11.  Whatever the file, and also when it ends in an exception, the
    analysis only prints: it starts no process, creates no directory and
    leaves the world as it found it. *)
Theorem analysis_only_prints (file_path : string) (st : state World) :
  exists lines,
    snd (CheckOcr.analyze_pdf_pages file_path st)
    = {| world := world st; trace := (trace st ++ map Printed lines)%list |}
    /\ spawns (trace (snd (CheckOcr.analyze_pdf_pages file_path st)))
       = spawns (trace st)
    /\ made_dirs (trace (snd (CheckOcr.analyze_pdf_pages file_path st)))
       = made_dirs (trace st).
Proof.
  destruct (analyze_pdf_pages_frame file_path st) as [lines Hframe].
  exists lines. rewrite Hframe. cbn [trace].
  rewrite spawns_app, made_dirs_app, spawns_printed, made_dirs_printed.
  rewrite !app_nil_r. repeat split.
Qed.

(** X1.  When the source folder is not a directory, [process_folder]
    prints that it does not exist and returns: it creates no output
    folder, lists nothing and starts no process. *)
Theorem process_folder_without_source (source_folder output_folder : string)
  (st : state World) :
  os_path_isdir (world st) source_folder = false ->
  CheckOcr.process_folder source_folder output_folder st
  = (Return tt,
     {| world := world st;
        trace :=
          (trace st ++
             [Printed ("Error: Source folder '" ++ source_folder
                         ++ "' does not exist.")])%list |}).
Proof.
  intros Hdir. unfold CheckOcr.process_folder.
  unfold bind at 1. unfold ask at 1. rewrite Hdir. reflexivity.
Qed.

(** X2.  When the source folder is a directory, [process_folder] calls
    [os.makedirs] once, for the output folder, if that path does not
    exist, and not at all if it does; this holds whatever happens
    afterwards, also when the folder holds no PDF or a later step
    raises. *)
Theorem output_folder_created_once (source_folder output_folder : string)
  (st : state World) :
  os_path_isdir (world st) source_folder = true ->
  made_dirs (trace (snd (CheckOcr.process_folder source_folder output_folder
                           st)))
  = (made_dirs (trace st)
       ++ if os_path_exists (world st) output_folder then []
          else [output_folder])%list.
Proof.
  intros Hdir. unfold CheckOcr.process_folder.
  unfold bind at 1. unfold ask at 1. rewrite Hdir. cbn [negb].
  unfold bind at 1. unfold ask at 1.
  assert (Hloop :
    forall st1 : state World,
      made_dirs
        (trace
           (snd ((names <- query (fun w => os_listdir w source_folder) ;;
                  let file_list :=
                    filter (fun f => PyStr.endswith f ".pdf") names in
                  match file_list with
                  | [] =>
                      print ("No PDF files found in '" ++ source_folder
                               ++ "'.")
                  | _ :: _ =>
                      print ("Found " ++ PyStr.str_nat (length file_list)
                               ++ " PDF files to process.") ;;
                      print (PyStr.repeat "-" 30) ;;
                      for_each file_list
                        (CheckOcr.process_file source_folder output_folder)
                  end) st1)))
      = made_dirs (trace st1)).
  { intros st1. unfold bind at 1. unfold query at 1.
    destruct (os_listdir (world st1) source_folder) as [names|e];
      [|reflexivity].
    cbv zeta.
    destruct (filter (fun f => PyStr.endswith f ".pdf") names)
      as [|f file_list].
    - rewrite print_run. cbn [snd trace]. rewrite made_dirs_app.
      cbn [made_dirs]. apply app_nil_r.
    - do 2 step_print.
      match goal with
      | |- context [for_each ?l ?b ?s] =>
          destruct (process_files_trace source_folder output_folder l s)
            as (done & pending & per_file & added & _ & _ & Htr & _ & Hm & _)
      end.
      rewrite Htr. cbn [trace]. rewrite !made_dirs_app, Hm.
      cbn [made_dirs]. rewrite !app_nil_r. reflexivity. }
  destruct (os_path_exists (world st) output_folder); cbn [negb].
  - unfold bind at 1. unfold ret at 1. rewrite Hloop. rewrite app_nil_r.
    reflexivity.
  - unfold bind at 1. unfold bind at 1. unfold emit at 1.
    unfold bind at 1. unfold call at 1. cbn [world trace].
    destruct (os_makedirs (world st) output_folder) as [[[]|e] w1].
    + rewrite print_run. cbv beta iota. rewrite Hloop. cbn [trace].
      rewrite !made_dirs_app. cbn [made_dirs]. rewrite app_nil_r.
      reflexivity.
    + cbn [snd trace]. rewrite made_dirs_app. reflexivity.
Qed.

End Loop.

Section Folder.

Context {World : Type} {os : OS World} {path : OsPath}.

(** [process_folder] up to the point where the PDFs are known: the
    source is a directory, the output folder exists or is created, and
    the source lists as [names]. *)
Lemma process_folder_listed (source_folder output_folder : string)
  (names : list string) (st : state World) :
  os_path_isdir (world st) source_folder = true ->
  (os_path_exists (world st) output_folder = false ->
   fst (os_makedirs (world st) output_folder) = Return tt) ->
  os_listdir
    (if os_path_exists (world st) output_folder then world st
     else snd (os_makedirs (world st) output_folder))
    source_folder = Return names ->
  CheckOcr.process_folder source_folder output_folder st
  = match filter (fun f => PyStr.endswith f ".pdf") names with
    | [] => print ("No PDF files found in '" ++ source_folder ++ "'.")
    | _ :: _ =>
        print ("Found "
                 ++ PyStr.str_nat
                      (length (filter (fun f => PyStr.endswith f ".pdf")
                                 names))
                 ++ " PDF files to process.") ;;
        print (PyStr.repeat "-" 30) ;;
        for_each (filter (fun f => PyStr.endswith f ".pdf") names)
          (CheckOcr.process_file source_folder output_folder)
    end
      {| world :=
           if os_path_exists (world st) output_folder then world st
           else snd (os_makedirs (world st) output_folder);
         trace :=
           (trace st ++
              if os_path_exists (world st) output_folder then []
              else [Makedirs output_folder;
                    Printed ("Created output folder: '" ++ output_folder
                               ++ "'")])%list |}.
Proof.
  intros Hdir Hmk Hlist. unfold CheckOcr.process_folder.
  unfold bind at 1. unfold ask at 1. rewrite Hdir. cbn [negb].
  unfold bind at 1. unfold ask at 1.
  destruct (os_path_exists (world st) output_folder); cbn [negb].
  - unfold bind at 1. unfold ret at 1.
    unfold bind at 1. unfold query at 1. rewrite Hlist. cbv zeta.
    rewrite app_nil_r. destruct st as [w tr]. cbn [world trace].
    destruct (filter (fun f => PyStr.endswith f ".pdf") names); reflexivity.
  - specialize (Hmk eq_refl).
    unfold bind at 1. unfold bind at 1. unfold emit at 1.
    unfold bind at 1. unfold call at 1. cbn [world trace].
    destruct (os_makedirs (world st) output_folder) as [r w1].
    cbn [fst snd] in *. subst r. rewrite print_run. cbv beta iota.
    cbn [world trace].
    unfold bind at 1. unfold query at 1. cbn [world]. rewrite Hlist.
    cbv zeta. rewrite <- app_assoc. cbn [app].
    destruct (filter (fun f => PyStr.endswith f ".pdf") names); reflexivity.
Qed.

(** X3.  When the source folder lists no name ending in [.pdf],
    [process_folder] says so and returns: no file is analysed and no
    process is started.  The output folder has been created all the
    same if it was missing. *)
Theorem process_folder_without_pdfs (source_folder output_folder : string)
  (names : list string) (st : state World) :
  os_path_isdir (world st) source_folder = true ->
  (os_path_exists (world st) output_folder = false ->
   fst (os_makedirs (world st) output_folder) = Return tt) ->
  os_listdir
    (if os_path_exists (world st) output_folder then world st
     else snd (os_makedirs (world st) output_folder))
    source_folder = Return names ->
  Forall (fun f => PyStr.endswith f ".pdf" = false) names ->
  CheckOcr.process_folder source_folder output_folder st
  = (Return tt,
     {| world :=
          if os_path_exists (world st) output_folder then world st
          else snd (os_makedirs (world st) output_folder);
        trace :=
          (trace st
             ++ (if os_path_exists (world st) output_folder then []
                 else [Makedirs output_folder;
                       Printed ("Created output folder: '" ++ output_folder
                                  ++ "'")])
             ++ [Printed ("No PDF files found in '" ++ source_folder
                            ++ "'.")])%list |}).
Proof.
  intros Hdir Hmk Hlist Hnone.
  rewrite (process_folder_listed _ _ names st Hdir Hmk Hlist).
  assert (Hnil : filter (fun f => PyStr.endswith f ".pdf") names = []).
  { clear - Hnone. induction Hnone as [|f names Hf _ IH]; [reflexivity|].
    cbn [filter]. rewrite Hf. exact IH. }
  rewrite Hnil, print_run. cbn [world trace]. rewrite <- app_assoc.
  reflexivity.
Qed.

(** One turn of the loop on a file that is readable, with a tool whose
    failures are the handled ones. *)
Lemma process_file_readable (source_folder output_folder filename : string)
  (texts : list string) (st : state World) :
  (forall w command, tool_outcome (fst (subprocess_run w command))) ->
  readable (world st) (os_path_join source_folder filename) texts ->
  exists st',
    CheckOcr.process_file source_folder output_folder filename st
    = (Return tt, st')
    /\ spawns (trace st')
       = (spawns (trace st)
            ++ match needs_ocr texts with
               | [] => []
               | n :: rest =>
                   [selective_command (os_path_join source_folder filename)
                      output_folder (n :: rest)]
               end)%list
    /\ (world st' = world st
        \/ exists command,
             world st' = snd (subprocess_run (world st) command)).
Proof.
  intros Htool Hread.
  pose proof (analyze_pdf_pages_run _ texts st Hread) as Hrun.
  rewrite (process_file_run _ output_folder _ _ _ _ Hrun).
  unfold bind at 1.
  destruct (needs_ocr texts) as [|n rest].
  - rewrite run_ocr_for_file_empty. rewrite print_run.
    eexists. split; [reflexivity|]. cbn [world trace].
    split; [|left; reflexivity].
    rewrite !spawns_app, spawns_printed. cbn [spawns].
    rewrite !app_nil_r. reflexivity.
  - rewrite run_ocr_for_file_pages. cbn [world].
    match goal with
    | |- context [invoker_result (fst (subprocess_run ?w ?c))] =>
        pose proof (Htool w c) as Hout;
        destruct (subprocess_run w c) as [r w1] eqn:Eout
    end.
    cbn [fst snd] in *.
    assert (Hres : invoker_result r = Return tt)
      by (destruct r as [[]|[]]; try reflexivity; contradiction).
    rewrite Hres. rewrite print_run.
    eexists. split; [reflexivity|]. cbn [world trace]. split.
    + destruct (made_dirs_report
                  (os_path_basename (os_path_join source_folder filename)) r)
        as [_ Hs].
      rewrite !spawns_app, spawns_printed. cbn [spawns].
      rewrite Hs. cbn [spawns app]. rewrite ?app_nil_r. reflexivity.
    + right. eexists. rewrite Eout. reflexivity.
Qed.

(** The loop over files that are all readable. *)
Lemma process_files_readable (source_folder output_folder : string)
  (docs : list (string * list string)) :
  (forall w command, tool_outcome (fst (subprocess_run w command))) ->
  (forall w command p,
     pypdf_PdfReader (snd (subprocess_run w command)) p
     = pypdf_PdfReader w p) ->
  forall st : state World,
    Forall
      (fun d =>
         readable (world st) (os_path_join source_folder (fst d)) (snd d))
      docs ->
    exists st',
      for_each (map fst docs)
        (CheckOcr.process_file source_folder output_folder) st
      = (Return tt, st')
      /\ spawns (trace st')
         = (spawns (trace st)
              ++ flat_map
                   (fun d =>
                      match needs_ocr (snd d) with
                      | [] => []
                      | n :: rest =>
                          [selective_command
                             (os_path_join source_folder (fst d))
                             output_folder (n :: rest)]
                      end) docs)%list.
Proof.
  intros Htool Hkeep.
  induction docs as [|d docs IH]; intros st Hdocs.
  - exists st. split; [reflexivity|]. cbn [flat_map]. rewrite app_nil_r.
    reflexivity.
  - inversion Hdocs as [|d' docs' Hd Hrest]; subst d' docs'.
    destruct (process_file_readable source_folder output_folder (fst d)
                (snd d) st Htool Hd) as (st1 & Hrun & Hs1 & Hw).
    assert (Hrest1 :
      Forall
        (fun d0 =>
           readable (world st1) (os_path_join source_folder (fst d0))
             (snd d0)) docs).
    { apply Forall_forall. intros d0 Hin.
      rewrite Forall_forall in Hrest. specialize (Hrest d0 Hin).
      destruct Hw as [Hw|[command Hw]]; rewrite Hw; [exact Hrest|].
      destruct Hrest as (reader & pdf_pages & Hopen & Hp).
      exists reader, pdf_pages. rewrite Hkeep. split; assumption. }
    destruct (IH st1 Hrest1) as (st2 & Hloop & Hs2).
    exists st2. cbn [map for_each]. unfold bind at 1. rewrite Hrun.
    split; [exact Hloop|].
    rewrite Hs2, Hs1. cbn [flat_map]. rewrite <- app_assoc. reflexivity.
Qed.


(** X5.  An exception of [subprocess.run] that is neither
    [CalledProcessError] nor [FileNotFoundError] is not handled: it
    leaves [run_ocr_for_file] right after the run was started, and with
    it the loop of [process_folder], which neither analyses nor treats
    the files that remain. *)
Theorem unexpected_tool_error_stops_batch
  (source_folder output_folder filename : string) (remaining : list string)
  (n : nat) (rest : list nat) (st st1 : state World) (msg : string) :
  let file_path := os_path_join source_folder filename in
  let command :=
    [ "ocrmypdf"; "-l"; "ell+eng+tur"; "--redo-ocr"; "--pages";
      PyStr.join "," (map PyStr.str_nat (n :: rest));
      file_path; os_path_join output_folder (os_path_basename file_path) ] in
  CheckOcr.analyze_pdf_pages file_path st = (Return (n :: rest), st1) ->
  fst (subprocess_run (world st1) command) = Raise (OtherError msg) ->
  for_each (filename :: remaining)
    (CheckOcr.process_file source_folder output_folder) st
  = (Raise (OtherError msg),
     {| world := snd (subprocess_run (world st1) command);
        trace :=
          (trace st1 ++
             [Printed ("Running command for " ++ os_path_basename file_path
                         ++ " on pages: "
                         ++ PyStr.join ","
                              (map PyStr.str_nat (n :: rest)));
              Spawn command])%list |}).
Proof.
  intros file_path command Hpages Hrun.
  cbn [for_each]. unfold bind at 1.
  rewrite (process_file_run _ output_folder _ _ _ _ Hpages).
  fold file_path. unfold bind at 1.
  rewrite run_ocr_for_file_pages. fold command. rewrite Hrun.
  reflexivity.
Qed.

Lemma analyze_loop_failing (good more : list Page) (bad : Page)
  (texts : list string) (e : exn) :
  map extract_text good = map (@Return string) texts ->
  extract_text bad = Raise e ->
  forall m k acc counts (st : state World),
    k <= length good < k + m ->
    CheckOcr.analyze_loop (good ++ bad :: more) (seq k m) acc counts st
    = (Raise e, st).
Proof.
  intros Hmap Hbad.
  assert (Hlen : length good = length texts).
  { rewrite <- (length_map extract_text), Hmap. apply length_map. }
  induction m as [|m IH]; intros k acc counts st Hk; [lia|].
  cbn [seq CheckOcr.analyze_loop]. unfold bind at 1. unfold getitem.
  destruct (Nat.eq_dec k (length good)) as [->|Hne].
  - rewrite nth_error_app2 by lia. rewrite Nat.sub_diag. cbn [nth_error].
    unfold ret at 1. unfold bind at 1. unfold lift at 1. rewrite Hbad.
    reflexivity.
  - destruct (extracted_nth good texts k Hmap) as (page & t & Hp & Ht & _);
      [lia|].
    rewrite nth_error_app1 by lia. rewrite Hp.
    unfold ret at 1. unfold bind at 1. unfold lift at 1. rewrite Ht.
    cbv zeta. apply IH. lia.
Qed.

(** X6.  Only the opening of a PDF is guarded.  When a file opens but
    its pages cannot be reached, or one of its pages fails to extract
    after others did, the exception leaves [analyze_pdf_pages] and the
    loop of [process_folder]: no process is started for the file, and
    the files that remain are not treated. *)
Theorem page_error_stops_batch
  (source_folder output_folder filename : string) (remaining : list string)
  (reader : PdfReader) (good more : list Page) (bad : Page)
  (texts : list string) (e : exn) (st : state World) :
  pypdf_PdfReader (world st) (os_path_join source_folder filename)
  = Return reader ->
  pages reader = Raise e
  \/ (pages reader = Return (good ++ bad :: more)%list
      /\ map extract_text good = map (@Return string) texts
      /\ extract_text bad = Raise e) ->
  let after :=
    for_each (filename :: remaining)
      (CheckOcr.process_file source_folder output_folder) st in
  fst after = Raise e
  /\ world (snd after) = world st
  /\ spawns (trace (snd after)) = spawns (trace st).
Proof.
  intros Hopen Hfail after.
  assert (Hraise :
    fst (CheckOcr.analyze_pdf_pages (os_path_join source_folder filename) st)
    = Raise e).
  { unfold CheckOcr.analyze_pdf_pages. rewrite Hopen.
    unfold bind at 1. unfold lift at 1.
    destruct Hfail as [Hpages|(Hpages & Hmap & Hbad)]; rewrite Hpages;
      [reflexivity|].
    unfold bind at 1. rewrite print_run. cbv beta iota.
    unfold bind at 1.
    rewrite (analyze_loop_failing good more bad texts e Hmap Hbad);
      [reflexivity|].
    rewrite length_app. cbn [length]. lia. }
  destruct (analyze_pdf_pages_frame (os_path_join source_folder filename) st)
    as [lines Hframe].
  assert (Hafter :
    after
    = (Raise e,
       {| world := world st;
          trace := (trace st ++ map Printed lines)%list |})).
  { subst after. cbn [for_each]. unfold bind at 1.
    unfold CheckOcr.process_file. unfold bind at 1.
    destruct (CheckOcr.analyze_pdf_pages
                (os_path_join source_folder filename) st) as [r st1].
    cbn [fst snd] in Hraise, Hframe. subst r st1. reflexivity. }
  rewrite Hafter. cbn [fst snd world trace].
  rewrite spawns_app, spawns_printed, app_nil_r. repeat split.
Qed.

End Folder.

(* ===================================================================== *)
(** ** More on the scans and on listing errors *)
(* ===================================================================== *)

Lemma lower_char_idempotent (c : ascii) :
  PyStr.lower_char (PyStr.lower_char c) = PyStr.lower_char c.
Proof.
  destruct c as [[] [] [] [] [] [] [] []]; reflexivity.
Qed.

Lemma lower_idempotent (s : string) :
  PyStr.lower (PyStr.lower s) = PyStr.lower s.
Proof.
  induction s as [|c s IH]; simpl; [reflexivity|].
  rewrite lower_char_idempotent, IH. reflexivity.
Qed.

Lemma endswith_lower_pdf (f : string) :
  PyStr.endswith f ".pdf" = true ->
  PyStr.endswith (PyStr.lower f) ".pdf" = true.
Proof.
  intros H. apply endswith_spec in H. destruct H as [p ->].
  rewrite lower_app. apply endswith_app.
Qed.

(** X13.  The scan of the batch variant ignores case: a name and its
    lowercase form, and any two names that agree once lowercased, are
    selected alike. *)
Theorem scan_ignores_case (f : string) :
  Ocr.to_process (PyStr.lower f) = Ocr.to_process f
  /\ forall g, PyStr.lower g = PyStr.lower f ->
               Ocr.to_process g = Ocr.to_process f.
Proof.
  unfold Ocr.to_process. split.
  - rewrite lower_idempotent. reflexivity.
  - intros g ->. reflexivity.
Qed.

(** X14.  The two scripts do not scan alike.  Every name the selective
    script takes (it ends in [.pdf], case-sensitively) is taken by the
    batch variant too, unless it ends in [_ocr.pdf] once lowercased:
    the selective script does not skip earlier outputs.  On names that
    are already lowercase this is the only difference. *)
Theorem scans_compared (names : list string) (f : string) :
  (In f (filter (fun f => PyStr.endswith f ".pdf") names) ->
   In f (Ocr.files_to_process names)
   \/ exists p, PyStr.lower f = p ++ "_ocr.pdf")
  /\ (PyStr.lower f = f ->
      (In f (Ocr.files_to_process names) <->
       In f (filter (fun f => PyStr.endswith f ".pdf") names)
       /\ PyStr.endswith f "_ocr.pdf" = false)).
Proof.
  unfold Ocr.files_to_process, Ocr.to_process.
  change (Ocr.OUTPUT_SUFFIX ++ ".pdf") with "_ocr.pdf".
  rewrite !filter_In. split.
  - intros [Hin Hpdf].
    destruct (PyStr.endswith (PyStr.lower f) "_ocr.pdf") eqn:Hout.
    + right. apply endswith_spec. exact Hout.
    + left. split; [exact Hin|].
      rewrite (endswith_lower_pdf f Hpdf). reflexivity.
  - intros ->. rewrite andb_true_iff, negb_true_iff. tauto.
Qed.

Section Listing.

Context {World : Type} {os : OS World} {path : OsPath}.

(** X12.  When the source directory cannot be listed, [main] of the
    batch variant prints that it was not found and returns, if the
    exception is [FileNotFoundError]; any other exception leaves [main]
    with nothing printed. *)
Theorem main_without_listing (e : exn) (st : state World) :
  os_listdir (world st) Ocr.SOURCE_DIRECTORY = Raise e ->
  Ocr.main st
  = match e with
    | FileNotFoundError _ =>
        (Return tt,
         {| world := world st;
            trace :=
              (trace st ++
                 [Printed "Error: The directory 'archive' was not found."])%list |})
    | _ => (Raise e, st)
    end.
Proof.
  intros Hlist. unfold Ocr.main.
  unfold bind at 1. unfold try_except, bind, query, ret. rewrite Hlist.
  destruct e; reflexivity.
Qed.

(** X15.  The selective script does not guard its listing: when the
    source folder is a directory and the output folder exists, an
    exception of [os.listdir], [FileNotFoundError] included, leaves
    [process_folder] with nothing printed, and the script ends with
    exit status 1. *)
Theorem listing_error_leaves_process_folder
  (source_folder output_folder : string) (e : exn) (st : state World) :
  os_path_isdir (world st) source_folder = true ->
  os_path_exists (world st) output_folder = true ->
  os_listdir (world st) source_folder = Raise e ->
  CheckOcr.process_folder source_folder output_folder st = (Raise e, st)
  /\ exit_status (CheckOcr.process_folder source_folder output_folder st)
     = 1%Z.
Proof.
  intros Hdir Hout Hlist.
  assert (Hrun : CheckOcr.process_folder source_folder output_folder st
                 = (Raise e, st)).
  { unfold CheckOcr.process_folder.
    unfold bind at 1. unfold ask at 1. rewrite Hdir. cbn [negb].
    unfold bind at 1. unfold ask at 1. rewrite Hout. cbn [negb].
    unfold bind at 1. unfold ret at 1.
    unfold bind at 1. unfold query at 1. rewrite Hlist. reflexivity. }
  rewrite Hrun. split; reflexivity.
Qed.

End Listing.

(* ===================================================================== *)
(** ** Paths and names under POSIX *)
(* ===================================================================== *)

Lemma string_length_app (a b : string) :
  String.length (a ++ b) = String.length a + String.length b.
Proof.
  induction a as [|c a IH]; simpl; [reflexivity|].
  rewrite IH. reflexivity.
Qed.

Lemma substring_whole (s : string) : substring 0 (String.length s) s = s.
Proof.
  induction s as [|c s IH]; simpl; [reflexivity|].
  rewrite IH. reflexivity.
Qed.

Lemma substring_take_app (a b : string) :
  substring 0 (String.length a) (a ++ b) = a.
Proof.
  induction a as [|c a IH]; simpl.
  - destruct b; reflexivity.
  - rewrite IH. reflexivity.
Qed.

Lemma substring_skip_app (a b : string) (n : nat) :
  substring (String.length a) n (a ++ b) = substring 0 n b.
Proof.
  induction a as [|c a IH]; simpl; [reflexivity|exact IH].
Qed.

Lemma drop_app (a b : string) : PyStr.drop (String.length a) (a ++ b) = b.
Proof.
  unfold PyStr.drop. rewrite string_length_app, substring_skip_app.
  replace (String.length a + String.length b - String.length a)
    with (String.length b) by lia.
  apply substring_whole.
Qed.

Lemma rfind_from_app (c : ascii) (a b : string) :
  forall i last,
    PyStr.rfind_from c (a ++ b) i last
    = PyStr.rfind_from c b (i + Z.of_nat (String.length a))%Z
        (PyStr.rfind_from c a i last).
Proof.
  induction a as [|d a IH]; intros i last; simpl String.length.
  - cbn [append PyStr.rfind_from]. f_equal. lia.
  - cbn [append PyStr.rfind_from]. rewrite IH. f_equal. lia.
Qed.

Lemma rfind_from_lacks (c : ascii) (s : string) :
  lacks c s = true ->
  forall i last, PyStr.rfind_from c s i last = last.
Proof.
  induction s as [|d s IH]; intros H i last; [reflexivity|].
  cbn [lacks] in H. apply andb_true_iff in H. destruct H as [Hd Hs].
  cbn [PyStr.rfind_from]. apply negb_true_iff in Hd. rewrite Hd.
  apply IH. exact Hs.
Qed.

Lemma lacks_app (c : ascii) (a b : string) :
  lacks c (a ++ b) = lacks c a && lacks c b.
Proof.
  induction a as [|d a IH]; simpl; [reflexivity|].
  rewrite IH. apply andb_assoc.
Qed.

(** The last [c] of [a ++ c ++ b], when [b] has none. *)
Lemma rfind_last (c : ascii) (a b : string) :
  lacks c b = true ->
  PyStr.rfind c (a ++ String c b) = Z.of_nat (String.length a).
Proof.
  intros Hb. unfold PyStr.rfind. rewrite rfind_from_app.
  cbn [PyStr.rfind_from]. rewrite Ascii.eqb_refl.
  rewrite rfind_from_lacks by exact Hb. lia.
Qed.

Lemma rfind_none (c : ascii) (s : string) :
  lacks c s = true -> PyStr.rfind c s = (-1)%Z.
Proof.
  intros H. unfold PyStr.rfind. apply rfind_from_lacks. exact H.
Qed.

Lemma posix_basename_app (a b : string) :
  lacks "/" b = true ->
  a = "" \/ (exists q, a = q ++ "/") ->
  posix_basename (a ++ b) = b.
Proof.
  intros Hb [->|[q ->]]; unfold posix_basename.
  - cbn [append]. rewrite rfind_none by exact Hb. apply (drop_app "" b).
  - replace ((q ++ "/") ++ b) with (q ++ String "/" b).
    + rewrite rfind_last by exact Hb.
      replace (Z.to_nat (Z.of_nat (String.length q) + 1))
        with (String.length (q ++ "/"))
        by (rewrite string_length_app; simpl; lia).
      replace (q ++ String "/" b) with ((q ++ "/") ++ b).
      * apply drop_app.
      * clear. induction q as [|d q IH]; simpl; [reflexivity|].
        rewrite IH. reflexivity.
    + clear. induction q as [|d q IH]; simpl; [reflexivity|].
      rewrite IH. reflexivity.
Qed.

Lemma posix_basename_join (source_folder filename : string) :
  lacks "/" filename = true ->
  posix_basename (posix_join source_folder filename) = filename.
Proof.
  intros Hf. unfold posix_join.
  assert (Hstart : PyStr.startswith filename "/" = false).
  { destruct filename as [|c f]; [reflexivity|].
    cbn [lacks] in Hf. apply andb_true_iff in Hf. destruct Hf as [Hc _].
    apply negb_true_iff in Hc. unfold PyStr.startswith. cbn [prefix].
    destruct (ascii_dec "/" c) as [E|E]; [|reflexivity].
    subst c. rewrite Ascii.eqb_refl in Hc. discriminate. }
  rewrite Hstart.
  destruct (PyStr.len source_folder =? 0) eqn:Hlen; cbn [orb].
  - apply Nat.eqb_eq in Hlen.
    destruct source_folder; [|discriminate].
    apply (posix_basename_app "" filename Hf). left. reflexivity.
  - destruct (PyStr.endswith source_folder "/") eqn:Hend.
    + apply endswith_spec in Hend.
      apply (posix_basename_app source_folder filename Hf). right. exact Hend.
    + replace (source_folder ++ "/" ++ filename)
        with ((source_folder ++ "/") ++ filename).
      * apply (posix_basename_app (source_folder ++ "/") filename Hf).
        right. exists source_folder. reflexivity.
      * clear. induction source_folder as [|d q IH]; simpl; [reflexivity|].
        rewrite IH. reflexivity.
Qed.

Lemma get_some_lt (s : string) :
  forall k c, String.get k s = Some c -> k < String.length s.
Proof.
  induction s as [|d s IH]; intros k c H; [discriminate|].
  destruct k as [|k]; simpl in *; [lia|].
  apply IH in H. lia.
Qed.

Lemma string_app_cons (a b : string) (c : ascii) :
  a ++ String c b = (a ++ String c "") ++ b.
Proof.
  induction a as [|d a IH]; simpl; [reflexivity|].
  rewrite IH. reflexivity.
Qed.

(** [os.path.splitext] on a plain file name with an extension. *)
Lemma posix_splitext_ext (stem ext : string) (k : nat) (c : ascii) :
  lacks "/" stem = true ->
  lacks "/" ext = true ->
  lacks "." ext = true ->
  String.get k stem = Some c ->
  c <> "."%char ->
  posix_splitext (stem ++ String "." ext) = (stem, String "." ext).
Proof.
  intros Hstem Hext Hdot Hk Hc. unfold posix_splitext.
  assert (Hsep : PyStr.rfind "/" (stem ++ String "." ext) = (-1)%Z).
  { apply rfind_none. rewrite lacks_app, Hstem. cbn [lacks andb].
    rewrite Hext. reflexivity. }
  rewrite Hsep, (rfind_last "." stem ext Hdot).
  assert (Hlt : (-1 <? Z.of_nat (String.length stem))%Z = true)
    by (apply Z.ltb_lt; lia).
  rewrite Hlt. change (Z.to_nat (-1 + 1)) with 0.
  rewrite Nat2Z.id, Nat.sub_0_r.
  assert (Hex :
    existsb
      (fun k0 =>
         match String.get k0 (stem ++ String "." ext) with
         | Some c0 => negb (Ascii.eqb c0 ".")
         | None => false
         end) (seq 0 (String.length stem)) = true).
  { apply existsb_exists. exists k.
    pose proof (get_some_lt stem k c Hk) as Hlen. split.
    - apply in_seq. lia.
    - rewrite <- (append_correct1 stem (String "." ext) k Hlen), Hk.
      apply negb_true_iff. apply Ascii.eqb_neq. exact Hc. }
  rewrite Hex. unfold PyStr.take.
  rewrite substring_take_app, drop_app. reflexivity.
Qed.

Section Posix.

Context {World : Type} {os : OS World}.

(** X16.  Under POSIX paths the selective script writes the result for
    [source/name] to [output/name], under the same name: the command of
    [run_ocr_for_file] ends with the two joined paths.  So when the
    output folder is the source folder, a turn of the loop that starts
    a run hands the tool the same path as input and as output. *)
Theorem selective_output_keeps_name
  (source_folder output_folder filename : string) (n : nat)
  (rest : list nat) (st : state World) :
  lacks "/" filename = true ->
  spawns (trace (snd (@CheckOcr.run_ocr_for_file World os posix_path
                        (posix_join source_folder filename) output_folder
                        (n :: rest) st)))
  = (spawns (trace st)
       ++ [[ "ocrmypdf"; "-l"; "ell+eng+tur"; "--redo-ocr"; "--pages";
             String.concat "," (map PyStr.str_nat (n :: rest));
             posix_join source_folder filename;
             posix_join output_folder filename ]])%list
  /\ exists added,
       trace (snd (@CheckOcr.process_file World os posix_path source_folder
                     source_folder filename st))
       = (trace st ++ added)%list
       /\ (spawns added = []
           \/ exists pages_arg,
                spawns added
                = [[ "ocrmypdf"; "-l"; "ell+eng+tur"; "--redo-ocr";
                     "--pages"; pages_arg;
                     posix_join source_folder filename;
                     posix_join source_folder filename ]]).
Proof.
  intros Hf. split.
  - rewrite run_ocr_for_file_spawns.
    cbn [os_path_join os_path_basename posix_path].
    rewrite (posix_basename_join source_folder filename Hf). reflexivity.
  - destruct (@process_file_trace World os posix_path source_folder
                source_folder filename st) as (added & Htr & _ & Hturn).
    exists added. split; [exact Htr|].
    destruct Hturn as [Hnone|(m & more & Hone)]; [left; exact Hnone|].
    right. exists (String.concat "," (map PyStr.str_nat (m :: more))).
    rewrite Hone. unfold selective_command.
    cbn [os_path_join os_path_basename posix_path].
    rewrite (posix_basename_join source_folder filename Hf). reflexivity.
Qed.

(** X17.  Under POSIX paths the whole-file worker names its output
    after the input with the extension replaced: for a plain file name
    [stem.ext] whose stem is not made of dots alone, it reads
    [source/stem.ext] and writes [output/stem] followed by the suffix
    and [.pdf]. *)
Theorem worker_output_name
  (stem ext source_dir output_dir languages suffix : string) (k : nat)
  (c : ascii) (st : state World) :
  lacks "/" stem = true ->
  lacks "/" ext = true ->
  lacks "." ext = true ->
  String.get k stem = Some c ->
  c <> "."%char ->
  @Ocr.output_file_of posix_path (stem ++ String "." ext) suffix
  = stem ++ suffix ++ ".pdf"
  /\ spawns (trace (snd (@Ocr.run_ocr_on_file World os posix_path
                           (stem ++ String "." ext) source_dir output_dir
                           languages suffix st)))
     = (spawns (trace st)
          ++ [[ "ocrmypdf"; "-l"; languages; "--force-ocr";
                posix_join source_dir (stem ++ String "." ext);
                posix_join output_dir (stem ++ suffix ++ ".pdf") ]])%list.
Proof.
  intros Hstem Hext Hdot Hk Hc.
  pose proof (posix_splitext_ext stem ext k c Hstem Hext Hdot Hk Hc) as Hsplit.
  split.
  - unfold Ocr.output_file_of. cbn [os_path_splitext posix_path].
    rewrite Hsplit. reflexivity.
  - rewrite run_ocr_on_file_run. cbn [snd trace].
    cbn [os_path_splitext os_path_join posix_path]. rewrite Hsplit.
    rewrite spawns_app. cbn [spawns fst]. f_equal. f_equal. by_outcome.
Qed.

End Posix.

(* ===================================================================== *)
(** ** The page list on the command line *)
(* ===================================================================== *)

Lemma string_of_uint_lacks_comma (d : Decimal.uint) :
  lacks "," (NilEmpty.string_of_uint d) = true.
Proof.
  induction d; simpl; try rewrite IHd; reflexivity.
Qed.

Lemma str_nat_lacks_comma (n : nat) : lacks "," (PyStr.str_nat n) = true.
Proof.
  apply string_of_uint_lacks_comma.
Qed.

Lemma str_nat_injective (n m : nat) :
  PyStr.str_nat n = PyStr.str_nat m -> n = m.
Proof.
  unfold PyStr.str_nat. intros H.
  assert (Hu : Some (Nat.to_uint n) = Some (Nat.to_uint m)).
  { rewrite <- (NilEmpty.usu (Nat.to_uint n)), <- (NilEmpty.usu (Nat.to_uint m)).
    rewrite H. reflexivity. }
  injection Hu as Hu.
  rewrite <- (Unsigned.of_to n), <- (Unsigned.of_to m), Hu. reflexivity.
Qed.

Lemma str_nat_nonempty (n : nat) : PyStr.str_nat n <> "".
Proof.
  intros H. destruct n as [|n]; [discriminate H|].
  assert (E : PyStr.str_nat (S n) = PyStr.str_nat 0 -> False).
  { intros E. apply str_nat_injective in E. discriminate. }
  unfold PyStr.str_nat in H.
  assert (Hu : Some (Nat.to_uint (S n)) = Some Decimal.Nil).
  { rewrite <- (NilEmpty.usu (Nat.to_uint (S n))), H. reflexivity. }
  injection Hu as Hu.
  pose proof (Unsigned.of_to (S n)) as Hof. rewrite Hu in Hof.
  discriminate Hof.
Qed.

Lemma split_at_first (c : ascii) (a a' b b' : string) :
  lacks c a = true -> lacks c a' = true ->
  a ++ String c b = a' ++ String c b' ->
  a = a' /\ b = b'.
Proof.
  revert a'. induction a as [|d a IH]; intros a' Ha Ha' H.
  - destruct a' as [|d' a']; cbn [append] in H.
    + injection H as H. split; [reflexivity|exact H].
    + injection H as Hd _. subst d'. cbn [lacks] in Ha'.
      rewrite Ascii.eqb_refl in Ha'. discriminate.
  - destruct a' as [|d' a']; cbn [append] in H.
    + injection H as Hd _. subst d. cbn [lacks] in Ha.
      rewrite Ascii.eqb_refl in Ha. discriminate.
    + injection H as Hd H. subst d'.
      cbn [lacks] in Ha, Ha'.
      apply andb_true_iff in Ha. apply andb_true_iff in Ha'.
      destruct (IH a' (proj2 Ha) (proj2 Ha') H) as [-> ->].
      split; reflexivity.
Qed.

Lemma lacks_has (c : ascii) (a b : string) :
  lacks c (a ++ String c b) = false.
Proof.
  rewrite lacks_app. cbn [lacks]. rewrite Ascii.eqb_refl.
  cbn [negb andb]. apply andb_false_r.
Qed.

Lemma concat_cons2 (x y : string) (l : list string) :
  String.concat "," (x :: y :: l) = x ++ String "," (String.concat "," (y :: l)).
Proof. reflexivity. Qed.

Lemma pages_arg_injective (pages pages' : list nat) :
  PyStr.join "," (map PyStr.str_nat pages)
  = PyStr.join "," (map PyStr.str_nat pages') ->
  pages = pages'.
Proof.
  unfold PyStr.join. revert pages'.
  induction pages as [|a l IH]; intros [|b l'] H.
  - reflexivity.
  - exfalso. cbn [map] in H. destruct l' as [|c l'].
    + apply (str_nat_nonempty b). symmetry. exact H.
    + cbn [map] in H. rewrite concat_cons2 in H.
      destruct (PyStr.str_nat b) eqn:E; [|discriminate H].
      apply (str_nat_nonempty b E).
  - exfalso. cbn [map] in H. destruct l as [|c l].
    + apply (str_nat_nonempty a). exact H.
    + cbn [map] in H. rewrite concat_cons2 in H.
      destruct (PyStr.str_nat a) eqn:E; [|discriminate H].
      apply (str_nat_nonempty a E).
  - cbn [map] in H. destruct l as [|c l], l' as [|c' l'].
    + apply str_nat_injective in H. subst b. reflexivity.
    + exfalso. cbn [map] in H. rewrite concat_cons2 in H.
      pose proof (str_nat_lacks_comma a) as Ha. cbn [String.concat] in H.
      rewrite H, lacks_has in Ha. discriminate.
    + exfalso. cbn [map] in H. rewrite concat_cons2 in H.
      pose proof (str_nat_lacks_comma b) as Hb. cbn [String.concat] in H.
      rewrite <- H, lacks_has in Hb. discriminate.
    + cbn [map] in H. rewrite !concat_cons2 in H.
      apply split_at_first in H;
        [|apply str_nat_lacks_comma|apply str_nat_lacks_comma].
      destruct H as [Hab Hrest]. apply str_nat_injective in Hab. subst b.
      f_equal. apply IH. exact Hrest.
Qed.

(** X18.  The [--pages] argument determines the page list: two
    commands of the selective invoker for the same file agree only if
    they were built from the same pages, in the same order. *)
Theorem selective_command_determines_pages
  (input_file output_file : string) (pages pages' : list nat) :
  CheckOcr.ocr_command input_file output_file pages
  = CheckOcr.ocr_command input_file output_file pages' ->
  pages = pages'.
Proof.
  unfold CheckOcr.ocr_command. intros H.
  injection H as H. apply pages_arg_injective. exact H.
Qed.

(* ===================================================================== *)
(** ** What the worker returns, and a folder that cannot be created *)
(* ===================================================================== *)

Section Outcomes.

Context {World : Type} {os : OS World} {path : OsPath}.

(** X19.  The value of [run_ocr_on_file] tells how the run went: it is
    [None] exactly when the tool succeeded, and the worker raises
    exactly when [subprocess.run] raised something other than
    [CalledProcessError] and [FileNotFoundError], which it hands on
    unchanged; in every other case it returns a message. *)
Theorem worker_value_reflects_run
  (input_file source_dir output_dir languages suffix : string)
  (st : state World) :
  let command :=
    [ "ocrmypdf"; "-l"; languages; "--force-ocr";
      os_path_join source_dir input_file;
      os_path_join output_dir
        (fst (os_path_splitext input_file) ++ suffix ++ ".pdf")%string ] in
  let value :=
    fst (Ocr.run_ocr_on_file input_file source_dir output_dir languages
           suffix st) in
  (value = Return None <->
   fst (subprocess_run (world st) command) = Return tt)
  /\ (forall e,
        value = Raise e <->
        (exists msg, e = OtherError msg)
        /\ fst (subprocess_run (world st) command) = Raise e)
  /\ ((exists text, value = Return (Some text)) <->
      exists e, tool_failure e
                /\ fst (subprocess_run (world st) command) = Raise e).
Proof.
  intros command value. subst value.
  rewrite run_ocr_on_file_run. fold command. cbn [fst].
  destruct (fst (subprocess_run (world st) command)) as [[]|e];
    cbn [worker_result].
  - split; [tauto|]. split.
    + intros e. split; [discriminate|]. intros [_ H]. discriminate.
    + split; [intros [text H]; discriminate|].
      intros (e & _ & H). discriminate.
  - split; [destruct e; split; discriminate|]. split.
    + intros e'. split.
      * destruct e; try discriminate. intros H. injection H as <-.
        split; [eexists; reflexivity|reflexivity].
      * intros [[msg ->] H]. injection H as ->. reflexivity.
    + split.
      * intros [text H]. exists e. destruct e; try discriminate H;
          split; try exact I; reflexivity.
      * intros (e' & Hf & H). injection H as ->.
        destruct e'; try contradiction; eexists; reflexivity.
Qed.

(** X20.  When the source folder is a directory, the output folder does
    not exist and [os.makedirs] raises, the exception leaves
    [process_folder] at once: nothing is printed, nothing is listed or
    analysed, and no process is started. *)
Theorem makedirs_error_leaves_process_folder
  (source_folder output_folder : string) (e : exn) (st : state World) :
  os_path_isdir (world st) source_folder = true ->
  os_path_exists (world st) output_folder = false ->
  fst (os_makedirs (world st) output_folder) = Raise e ->
  CheckOcr.process_folder source_folder output_folder st
  = (Raise e,
     {| world := snd (os_makedirs (world st) output_folder);
        trace := (trace st ++ [Makedirs output_folder])%list |}).
Proof.
  intros Hdir Hout Hmk. unfold CheckOcr.process_folder.
  unfold bind at 1. unfold ask at 1. rewrite Hdir. cbn [negb].
  unfold bind at 1. unfold ask at 1. rewrite Hout. cbn [negb].
  unfold bind at 1. unfold bind at 1. unfold emit at 1.
  unfold bind at 1. unfold call at 1. cbn [world trace].
  destruct (os_makedirs (world st) output_folder) as [r w1].
  cbn [fst snd] in *. subst r. reflexivity.
Qed.

End Outcomes.

(* ===================================================================== *)
(** ** The further properties on the small worlds *)
(* ===================================================================== *)

Lemma disk_readable (w : Disk) (p : string) (texts : list string) :
  existsb (String.eqb p) (disk_broken w) = false ->
  assoc p (disk_pdfs w) = Some texts ->
  readable w p texts.
Proof.
  intros Hb Hp. exists (pdf_of texts), (map page_of texts).
  cbn [pypdf_PdfReader disk_os]. unfold disk_PdfReader. rewrite Hb, Hp.
  split; [reflexivity|]. split; [reflexivity|].
  rewrite map_map. reflexivity.
Qed.

Lemma process_folder_without_source_witness :
  os_path_isdir (world (start (archive Missing))) "nowhere" = false
  /\ CheckOcr.process_folder "nowhere" "ocr" (start (archive Missing))
     = (Return tt,
        {| world := archive Missing;
           trace :=
             [Printed "Error: Source folder 'nowhere' does not exist."] |}).
Proof.
  assert (H : os_path_isdir (world (start (archive Missing))) "nowhere"
              = false) by reflexivity.
  exact (conj H
           (@process_folder_without_source Disk disk_os posix_path
              "nowhere" "ocr" (start (archive Missing)) H)).
Defined.

Lemma output_folder_created_once_witness :
  os_path_isdir (world (start (archive Missing))) "archive" = true
  /\ made_dirs (trace (snd (CheckOcr.process_folder "archive" "ocr"
                              (start (archive Missing)))))
     = ["ocr"].
Proof.
  assert (H : os_path_isdir (world (start (archive Missing))) "archive"
              = true) by reflexivity.
  exact (conj H
           (@output_folder_created_once Disk disk_os posix_path
              "archive" "ocr" (start (archive Missing)) H)).
Defined.

Lemma process_folder_without_pdfs_witness :
  os_path_isdir (world (start volumes)) "empty" = true
  /\ CheckOcr.process_folder "empty" "out" (start volumes)
     = (Return tt,
        {| world := snd (os_makedirs volumes "out");
           trace :=
             [Makedirs "out"; Printed "Created output folder: 'out'";
              Printed "No PDF files found in 'empty'."] |}).
Proof.
  assert (H1 : os_path_isdir (world (start volumes)) "empty" = true)
    by reflexivity.
  assert (H2 : os_path_exists (world (start volumes)) "out" = false ->
               fst (os_makedirs (world (start volumes)) "out") = Return tt)
    by reflexivity.
  assert (H3 : os_listdir
                 (if os_path_exists (world (start volumes)) "out"
                  then world (start volumes)
                  else snd (os_makedirs (world (start volumes)) "out"))
                 "empty" = Return ["notes.txt"; "Scan.PDF"])
    by reflexivity.
  assert (H4 : Forall (fun f => PyStr.endswith f ".pdf" = false)
                 ["notes.txt"; "Scan.PDF"])
    by (repeat constructor).
  exact (conj H1
           (@process_folder_without_pdfs Disk disk_os posix_path
              "empty" "out" _ (start volumes) H1 H2 H3 H4)).
Defined.

Lemma disk_run_keeps (w : Disk) (command : list string) (p : string) :
  pypdf_PdfReader (snd (subprocess_run w command)) p = pypdf_PdfReader w p.
Proof.
  cbn [subprocess_run disk_os]. unfold disk_run.
  destruct (disk_tool w) as [|status]; [reflexivity|].
  destruct (status command =? 0)%Z; reflexivity.
Qed.


(** The same run, spelled out: the cover and the bound volume are
    treated, the page of text is not. *)
Example volumes_runs :
  spawns (trace (snd (CheckOcr.process_folder "volumes" "out"
                        (start volumes))))
  = [ [ "ocrmypdf"; "-l"; "ell+eng+tur"; "--redo-ocr"; "--pages"; "1,2";
        "volumes/cover.pdf"; "out/cover.pdf" ];
      [ "ocrmypdf"; "-l"; "ell+eng+tur"; "--redo-ocr"; "--pages"; "1,2";
        "volumes/bound.pdf"; "out/bound.pdf" ] ].
Proof. vm_compute. reflexivity. Qed.

Lemma unexpected_tool_error_stops_batch_witness :
  CheckOcr.analyze_pdf_pages (os_path_join "vault" "scan.pdf") (start vault)
  = (Return [1],
     snd (CheckOcr.analyze_pdf_pages "vault/scan.pdf" (start vault)))
  /\ fst (for_each ["scan.pdf"; "locked.pdf"]
            (CheckOcr.process_file "vault" "vault") (start vault))
     = Raise (OtherError "Permission denied: 'ocrmypdf'")
  /\ spawns (trace (snd (for_each ["scan.pdf"; "locked.pdf"]
                           (CheckOcr.process_file "vault" "vault")
                           (start vault))))
     = [[ "ocrmypdf"; "-l"; "ell+eng+tur"; "--redo-ocr"; "--pages"; "1";
          "vault/scan.pdf"; "vault/scan.pdf" ]].
Proof.
  assert (H1 : CheckOcr.analyze_pdf_pages (os_path_join "vault" "scan.pdf")
                 (start vault)
               = (Return [1],
                  snd (CheckOcr.analyze_pdf_pages "vault/scan.pdf"
                         (start vault))))
    by (vm_compute; reflexivity).
  assert (H2 : fst (subprocess_run
                      (world (snd (CheckOcr.analyze_pdf_pages
                                     "vault/scan.pdf" (start vault))))
                      [ "ocrmypdf"; "-l"; "ell+eng+tur"; "--redo-ocr";
                        "--pages"; PyStr.join "," (map PyStr.str_nat [1]);
                        os_path_join "vault" "scan.pdf";
                        os_path_join "vault"
                          (os_path_basename
                             (os_path_join "vault" "scan.pdf")) ])
               = Raise (OtherError "Permission denied: 'ocrmypdf'"))
    by reflexivity.
  pose proof (@unexpected_tool_error_stops_batch Vault vault_os posix_path
                "vault" "vault" "scan.pdf" ["locked.pdf"] 1 []
                (start vault) _ _ H1 H2) as Hstop.
  split; [exact H1|]. rewrite Hstop. split; reflexivity.
Defined.

Lemma page_error_stops_batch_witness :
  pypdf_PdfReader (world (start vault)) (os_path_join "vault" "torn.pdf")
  = Return {| pages :=
                Return [ page_of "title";
                         {| extract_text :=
                              Raise (OtherError "Unexpected end of stream") |};
                         page_of "" ] |}
  /\ fst (for_each ["torn.pdf"; "scan.pdf"]
            (CheckOcr.process_file "vault" "vault") (start vault))
     = Raise (OtherError "Unexpected end of stream")
  /\ world (snd (for_each ["torn.pdf"; "scan.pdf"]
                   (CheckOcr.process_file "vault" "vault") (start vault)))
     = world (start vault)
  /\ spawns (trace (snd (for_each ["torn.pdf"; "scan.pdf"]
                           (CheckOcr.process_file "vault" "vault")
                           (start vault))))
     = spawns (trace (start vault)).
Proof.
  assert (H1 : pypdf_PdfReader (world (start vault))
                 (os_path_join "vault" "torn.pdf")
               = Return {| pages :=
                             Return [ page_of "title";
                                      {| extract_text :=
                                           Raise (OtherError
                                                    "Unexpected end of stream") |};
                                      page_of "" ] |})
    by reflexivity.
  exact (conj H1
           (@page_error_stops_batch Vault vault_os posix_path
              "vault" "vault" "torn.pdf" ["scan.pdf"] _
              [page_of "title"] [page_of ""]
              {| extract_text := Raise (OtherError "Unexpected end of stream") |}
              ["title"] _ (start vault) H1
              (or_intror (conj eq_refl (conj eq_refl eq_refl))))).
Defined.

Lemma analysis_report_witness :
  readable (world (start volumes)) "volumes/cover.pdf" [""; "Tome 1"]
  /\ exists found,
       fst (CheckOcr.analyze_pdf_pages "volumes/cover.pdf" (start volumes))
       = Return found
       /\ printed (trace (snd (CheckOcr.analyze_pdf_pages "volumes/cover.pdf"
                                 (start volumes))))
          = (printed (trace (start volumes))
               ++ ("Analyzing '" ++ "volumes/cover.pdf" ++ "' ("
                     ++ PyStr.str_nat (length [""; "Tome 1"])
                     ++ " pages)...")%string
               :: (PyStr.nl ++ "--- Analysis Complete ---")%string
               :: "Character counts per page:"%string
               :: map (fun i =>
                         ("Page " ++ PyStr.str_nat (i + 1) ++ ": "
                            ++ PyStr.str_nat
                                 (PyStr.len
                                    (PyStr.strip
                                       (nth i [""; "Tome 1"] ""))))%string)
                    (seq 0 (length [""; "Tome 1"]))
               ++ [ match found with
                    | [] =>
                        "Found no pages that need OCR. The document appears to be fully searchable."%string
                    | _ :: _ =>
                        ("Found " ++ PyStr.str_nat (length found)
                           ++ " pages that likely need OCR.")%string
                    end;
                    "-------------------------"%string ])%list.
Proof.
  assert (H : readable (world (start volumes)) "volumes/cover.pdf"
                [""; "Tome 1"])
    by (apply disk_readable; reflexivity).
  exact (conj H
           (@analysis_report Disk disk_os "volumes/cover.pdf" _
              (start volumes) H)).
Defined.

(** The report of the cover, line by line. *)
Example cover_report :
  printed (trace (snd (CheckOcr.analyze_pdf_pages "volumes/cover.pdf"
                         (start volumes))))
  = [ "Analyzing 'volumes/cover.pdf' (2 pages)...";
      PyStr.nl ++ "--- Analysis Complete ---";
      "Character counts per page:";
      "Page 1: 0"; "Page 2: 6";
      "Found 2 pages that likely need OCR.";
      "-------------------------" ].
Proof. vm_compute. reflexivity. Qed.

Lemma blank_page_needs_ocr_witness :
  readable (world (start blank_scan)) "archive/scan.pdf" [PyStr.repeat " " 53]
  /\ nth_error [PyStr.repeat " " 53] 0 = Some (PyStr.repeat " " 53)
  /\ blank (PyStr.repeat " " 53) = true
  /\ exists found,
       fst (CheckOcr.analyze_pdf_pages "archive/scan.pdf" (start blank_scan))
       = Return found
       /\ In (0 + 1) found.
Proof.
  assert (H1 : readable (world (start blank_scan)) "archive/scan.pdf"
                 [PyStr.repeat " " 53])
    by (apply disk_readable; reflexivity).
  assert (H2 : nth_error [PyStr.repeat " " 53] 0
               = Some (PyStr.repeat " " 53)) by reflexivity.
  assert (H3 : blank (PyStr.repeat " " 53) = true) by reflexivity.
  exact (conj H1 (conj H2 (conj H3
           (@blank_page_needs_ocr Disk disk_os "archive/scan.pdf" _
              (start blank_scan) 0 _ H1 H2 H3)))).
Defined.

Lemma searchable_or_scanned_witness :
  readable (world (start volumes)) "volumes/text.pdf" [PyStr.repeat "c" 60]
  /\ exists found,
       fst (CheckOcr.analyze_pdf_pages "volumes/text.pdf" (start volumes))
       = Return found
       /\ (found = [] <->
           Forall (fun t => 52 < PyStr.len (PyStr.strip t))
             [PyStr.repeat "c" 60])
       /\ (found = seq 1 (length [PyStr.repeat "c" 60]) <->
           Forall (fun t => PyStr.len (PyStr.strip t) <= 52)
             [PyStr.repeat "c" 60]).
Proof.
  assert (H : readable (world (start volumes)) "volumes/text.pdf"
                [PyStr.repeat "c" 60])
    by (apply disk_readable; reflexivity).
  exact (conj H
           (@searchable_or_scanned Disk disk_os "volumes/text.pdf" _
              (start volumes) H)).
Defined.

Lemma analysis_of_joined_documents_witness :
  readable (world (start volumes)) "volumes/cover.pdf" [""; "Tome 1"]
  /\ readable (world (start volumes)) "volumes/text.pdf" [PyStr.repeat "c" 60]
  /\ readable (world (start volumes)) "volumes/bound.pdf"
       ([""; "Tome 1"] ++ [PyStr.repeat "c" 60])%list
  /\ exists found_a found_b,
       fst (CheckOcr.analyze_pdf_pages "volumes/cover.pdf" (start volumes))
       = Return found_a
       /\ fst (CheckOcr.analyze_pdf_pages "volumes/text.pdf" (start volumes))
          = Return found_b
       /\ fst (CheckOcr.analyze_pdf_pages "volumes/bound.pdf" (start volumes))
          = Return (found_a
                      ++ map (fun n => length [""; "Tome 1"] + n) found_b)%list.
Proof.
  assert (H1 : readable (world (start volumes)) "volumes/cover.pdf"
                 [""; "Tome 1"])
    by (apply disk_readable; reflexivity).
  assert (H2 : readable (world (start volumes)) "volumes/text.pdf"
                 [PyStr.repeat "c" 60])
    by (apply disk_readable; reflexivity).
  assert (H3 : readable (world (start volumes)) "volumes/bound.pdf"
                 ([""; "Tome 1"] ++ [PyStr.repeat "c" 60])%list)
    by (apply disk_readable; reflexivity).
  exact (conj H1 (conj H2 (conj H3
           (@analysis_of_joined_documents Disk disk_os "volumes/cover.pdf"
              "volumes/text.pdf" "volumes/bound.pdf" _ _ (start volumes)
              H1 H2 H3)))).
Defined.

Lemma main_without_listing_witness :
  os_listdir (world (start volumes)) Ocr.SOURCE_DIRECTORY
  = Raise (FileNotFoundError "No such file or directory: 'archive'")
  /\ Ocr.main (start volumes)
     = (Return tt,
        {| world := volumes;
           trace :=
             [Printed "Error: The directory 'archive' was not found."] |}).
Proof.
  assert (H : os_listdir (world (start volumes)) Ocr.SOURCE_DIRECTORY
              = Raise (FileNotFoundError
                         "No such file or directory: 'archive'"))
    by reflexivity.
  exact (conj H
           (@main_without_listing Disk disk_os _ (start volumes) H)).
Defined.

Lemma scan_ignores_case_witness :
  PyStr.lower "TOME 1.pdf" = PyStr.lower "Tome 1.PDF"
  /\ Ocr.to_process "TOME 1.pdf" = Ocr.to_process "Tome 1.PDF".
Proof.
  assert (H : PyStr.lower "TOME 1.pdf" = PyStr.lower "Tome 1.PDF")
    by reflexivity.
  exact (conj H (proj2 (scan_ignores_case "Tome 1.PDF") "TOME 1.pdf" H)).
Defined.

Lemma scans_compared_witness :
  In "Tome 1_ocr.pdf"
    (filter (fun f => PyStr.endswith f ".pdf")
       ["Tome 1.pdf"; "Tome 1_ocr.pdf"; "Tome 2.PDF"])
  /\ (In "Tome 1_ocr.pdf"
        (Ocr.files_to_process ["Tome 1.pdf"; "Tome 1_ocr.pdf"; "Tome 2.PDF"])
      \/ exists p, PyStr.lower "Tome 1_ocr.pdf" = p ++ "_ocr.pdf").
Proof.
  assert (H : In "Tome 1_ocr.pdf"
                (filter (fun f => PyStr.endswith f ".pdf")
                   ["Tome 1.pdf"; "Tome 1_ocr.pdf"; "Tome 2.PDF"]))
    by (right; left; reflexivity).
  exact (conj H
           (proj1 (scans_compared
                     ["Tome 1.pdf"; "Tome 1_ocr.pdf"; "Tome 2.PDF"]
                     "Tome 1_ocr.pdf") H)).
Defined.

Lemma listing_error_leaves_process_folder_witness :
  os_path_isdir (world (start vault)) "sealed" = true
  /\ os_path_exists (world (start vault)) "vault" = true
  /\ os_listdir (world (start vault)) "sealed"
     = Raise (OtherError "Permission denied: 'sealed'")
  /\ CheckOcr.process_folder "sealed" "vault" (start vault)
     = (Raise (OtherError "Permission denied: 'sealed'"), start vault)
  /\ exit_status (CheckOcr.process_folder "sealed" "vault" (start vault))
     = 1%Z.
Proof.
  assert (H1 : os_path_isdir (world (start vault)) "sealed" = true)
    by reflexivity.
  assert (H2 : os_path_exists (world (start vault)) "vault" = true)
    by reflexivity.
  assert (H3 : os_listdir (world (start vault)) "sealed"
               = Raise (OtherError "Permission denied: 'sealed'"))
    by reflexivity.
  exact (conj H1 (conj H2 (conj H3
           (@listing_error_leaves_process_folder Vault vault_os posix_path
              "sealed" "vault" _ (start vault) H1 H2 H3)))).
Defined.

Lemma selective_output_keeps_name_witness :
  lacks "/" "Tome 1.pdf" = true
  /\ spawns (trace (snd (@CheckOcr.run_ocr_for_file Disk disk_os posix_path
                           (posix_join "archive" "Tome 1.pdf") "ocr" [1; 3]
                           (start (archive Missing)))))
     = [[ "ocrmypdf"; "-l"; "ell+eng+tur"; "--redo-ocr"; "--pages"; "1,3";
          "archive/Tome 1.pdf"; "ocr/Tome 1.pdf" ]].
Proof.
  assert (H : lacks "/" "Tome 1.pdf" = true) by reflexivity.
  exact (conj H
           (proj1 (@selective_output_keeps_name Disk disk_os
                     "archive" "ocr" "Tome 1.pdf" 1 [3]
                     (start (archive Missing)) H))).
Defined.

Lemma worker_output_name_witness :
  lacks "/" "Tome 1" = true
  /\ lacks "/" "PDF" = true
  /\ lacks "." "PDF" = true
  /\ String.get 0 "Tome 1" = Some "T"%char
  /\ "T"%char <> "."%char
  /\ @Ocr.output_file_of posix_path "Tome 1.PDF" "_ocr" = "Tome 1_ocr.pdf".
Proof.
  assert (H1 : lacks "/" "Tome 1" = true) by reflexivity.
  assert (H2 : lacks "/" "PDF" = true) by reflexivity.
  assert (H3 : lacks "." "PDF" = true) by reflexivity.
  assert (H4 : String.get 0 "Tome 1" = Some "T"%char) by reflexivity.
  assert (H5 : "T"%char <> "."%char) by discriminate.
  exact (conj H1 (conj H2 (conj H3 (conj H4 (conj H5
           (proj1 (@worker_output_name Disk disk_os "Tome 1" "PDF"
                     "archive" "ocr" "eng+ell+tur" "_ocr" 0 "T"
                     (start (archive Missing)) H1 H2 H3 H4 H5))))))).
Defined.

Lemma selective_command_determines_pages_witness :
  CheckOcr.ocr_command "archive/Tome 1.pdf" "ocr/Tome 1.pdf" [1; 3]
  = CheckOcr.ocr_command "archive/Tome 1.pdf" "ocr/Tome 1.pdf" [1; 3]
  /\ [1; 3] = [1; 3].
Proof.
  assert (H : CheckOcr.ocr_command "archive/Tome 1.pdf" "ocr/Tome 1.pdf"
                [1; 3]
              = CheckOcr.ocr_command "archive/Tome 1.pdf" "ocr/Tome 1.pdf"
                  [1; 3]) by reflexivity.
  exact (conj H
           (selective_command_determines_pages "archive/Tome 1.pdf"
              "ocr/Tome 1.pdf" [1; 3] [1; 3] H)).
Defined.

Lemma makedirs_error_leaves_process_folder_witness :
  os_path_isdir (world (start vault)) "vault" = true
  /\ os_path_exists (world (start vault)) "out" = false
  /\ fst (os_makedirs (world (start vault)) "out")
     = Raise (OtherError "Permission denied: 'out'")
  /\ CheckOcr.process_folder "vault" "out" (start vault)
     = (Raise (OtherError "Permission denied: 'out'"),
        {| world := vault; trace := [Makedirs "out"] |}).
Proof.
  assert (H1 : os_path_isdir (world (start vault)) "vault" = true)
    by reflexivity.
  assert (H2 : os_path_exists (world (start vault)) "out" = false)
    by reflexivity.
  assert (H3 : fst (os_makedirs (world (start vault)) "out")
               = Raise (OtherError "Permission denied: 'out'"))
    by reflexivity.
  exact (conj H1 (conj H2 (conj H3
           (@makedirs_error_leaves_process_folder Vault vault_os posix_path
              "vault" "out" _ (start vault) H1 H2 H3)))).
Defined.
